(** * Ranking view-model and agent session of the financial-analysis page

    A shallow embedding of the logic of the [Home] component
    ([src/unnamed/part_000]; [src/app/page.tsx] is a second copy of the same
    component that differs in the success branch of [handleSendMessage] and
    in [ITEMS_PER_PAGE]):

    - [JS]: the fragment of the ECMAScript library the component relies on
      ([String.prototype.trim], [parseFloat], [ToNumber] on strings, the
      relational operator [<], the truthiness test behind [||] and [!],
      [Array.prototype.slice], [Array.prototype.sort]);
    - the wire data ([RankedInvestment], [AnalysisResult], ...);
    - the derived table ([getFilteredAndSortedInvestments], [totalPages],
      [paginatedInvestments]), the score codecs and the two event handlers
      [handleSendMessage] and [handleExportCSV].

    Conventions of the embedding.  A JavaScript string is a sequence of
    UTF-16 code units; a Rocq [string] stands for the sequence of its
    characters, each one code unit in the range 0..255.  A JavaScript number
    is an exact rational, one of the two infinities or NaN: rounding to
    binary64 is not modelled, and the two zeros are identified (no operation
    used here tells them apart). *)

From Stdlib Require Import ZArith QArith Qround String Ascii List Sorted Lia Lqa Bool.
From stdpp Require Import base list strings pretty gmap.
Local Close Scope Q_scope.
Local Open Scope Z_scope.

(** ** The ECMAScript fragment *)

Module JS.

(** *** Numbers *)

Inductive number : Type :=
  | NaN
  | PInf
  | NInf
  | Fin (q : Q).

Definition num_neg (n : number) : number :=
  match n with
  | NaN => NaN
  | PInf => NInf
  | NInf => PInf
  | Fin q => Fin (- q)%Q
  end.

(** [x < y] on numbers; [false] as soon as one side is NaN. *)
Definition num_lt (x y : number) : bool :=
  match x, y with
  | NaN, _ | _, NaN => false
  | PInf, _ => false
  | _, NInf => false
  | NInf, _ => true
  | _, PInf => true
  | Fin a, Fin b => match (a ?= b)%Q with Lt => true | _ => false end
  end.

Definition isNaN (n : number) : bool :=
  match n with NaN => true | _ => false end.

(** ToBoolean on a number: NaN and zero are falsy. *)
Definition num_truthy (n : number) : bool :=
  match n with
  | NaN => false
  | PInf | NInf => true
  | Fin q => negb (Qeq_bool q 0)
  end.



(** *** Strings *)

Definition code (c : ascii) : N := N_of_ascii c.

Definition is_digit (c : ascii) : bool :=
  ((48 <=? code c) && (code c <=? 57))%N.

Definition digit_value (c : ascii) : N := (code c - 48)%N.

(** WhiteSpace and LineTerminator code units below 256: TAB, LF, VT, FF, CR,
    SP and NBSP. *)
Definition is_white_space (c : ascii) : bool :=
  let n := code c in
  ((9 <=? n) && (n <=? 13) || (n =? 32) || (n =? 160))%N.

Fixpoint trim_start (s : string) : string :=
  match s with
  | String c r => if is_white_space c then trim_start r else s
  | EmptyString => EmptyString
  end.

Fixpoint trim_end (s : string) : string :=
  match s with
  | String c r =>
      match trim_end r with
      | EmptyString => if is_white_space c then EmptyString else String c EmptyString
      | r' => String c r'
      end
  | EmptyString => EmptyString
  end.

(** [String.prototype.trim]. *)
Definition trim (s : string) : string := trim_end (trim_start s).

(** ToBoolean on a string: only the empty string is falsy. *)
Definition str_truthy (s : string) : bool :=
  match s with EmptyString => false | _ => true end.

(** [s1 < s2] on strings: lexicographic on code units. *)
Definition str_lt (s1 s2 : string) : bool := String.ltb s1 s2.

Fixpoint str_drop (n : nat) (s : string) : string :=
  match n, s with
  | S n', String _ r => str_drop n' r
  | _, _ => s
  end.

(** *** Numeric literals *)

(** Reads the longest run of decimal digits at the head of [s], continuing
    the value [acc]; returns the value, the number of digits read and the
    rest. *)
Fixpoint span_digits (s : string) (acc : N) (cnt : nat) : N * nat * string :=
  match s with
  | String c r =>
      if is_digit c then span_digits r (acc * 10 + digit_value c)%N (S cnt)
      else (acc, cnt, s)
  | EmptyString => (acc, cnt, s)
  end.

(** ExponentPart, when one is present at the head of [s]; otherwise exponent
    0 and nothing consumed. *)
Definition exponent_part (s : string) : Z * string :=
  match s with
  | String c r =>
      if (code c =? 101)%N || (code c =? 69)%N then
        let '(neg, r1) :=
          match r with
          | String "+" r' => (false, r')
          | String "-" r' => (true, r')
          | _ => (false, r)
          end in
        let '(e, n, r2) := span_digits r1 0%N 0%nat in
        match n with
        | O => (0, s)
        | _ => ((if neg then - Z.of_N e else Z.of_N e), r2)
        end
      else (0, s)
  | EmptyString => (0, s)
  end.

Definition scale10 (m : N) (e : Z) : Q :=
  (inject_Z (Z.of_N m) * Qpower (10 # 1) e)%Q.

(** The longest prefix of [s] that is a StrUnsignedDecimalLiteral, with its
    value and the rest of [s]. *)
Definition str_unsigned_decimal (s : string) : option (number * string) :=
  if String.prefix "Infinity" s then Some (PInf, str_drop 8 s)
  else
    let '(ip, ni, r1) := span_digits s 0%N 0%nat in
    match r1 with
    | String "." r2 =>
        let '(m, nf, r3) := span_digits r2 ip 0%nat in
        match ni, nf with
        | O, O => None
        | _, _ =>
            let '(e, r4) := exponent_part r3 in
            Some (Fin (scale10 m (e - Z.of_nat nf)), r4)
        end
    | _ =>
        match ni with
        | O => None
        | _ =>
            let '(e, r4) := exponent_part r1 in
            Some (Fin (scale10 ip e), r4)
        end
    end.

(** The longest prefix that is a StrDecimalLiteral (an optional sign in
    front). *)
Definition str_decimal (s : string) : option (number * string) :=
  match s with
  | String "+" r => str_unsigned_decimal r
  | String "-" r =>
      match str_unsigned_decimal r with
      | Some (n, r') => Some (num_neg n, r')
      | None => None
      end
  | _ => str_unsigned_decimal s
  end.

(** [parseFloat]: leading white space is skipped, the longest decimal prefix
    is read, whatever follows is ignored; NaN when there is no such prefix. *)
Definition parseFloat (s : string) : number :=
  match str_decimal (trim_start s) with
  | Some (n, _) => n
  | None => NaN
  end.

(** Digits of a NonDecimalIntegerLiteral in the given radix. *)
Definition radix_digit (radix : N) (c : ascii) : option N :=
  let n := code c in
  let v :=
    if ((48 <=? n) && (n <=? 57))%N then Some (n - 48)%N
    else if ((97 <=? n) && (n <=? 102))%N then Some (n - 87)%N
    else if ((65 <=? n) && (n <=? 70))%N then Some (n - 55)%N
    else None in
  match v with
  | Some d => if (d <? radix)%N then Some d else None
  | None => None
  end.

Fixpoint radix_digits (radix : N) (s : string) (acc : N) : option N :=
  match s with
  | String c r =>
      match radix_digit radix c with
      | Some d => radix_digits radix r (acc * radix + d)%N
      | None => None
      end
  | EmptyString => Some acc
  end.

Definition non_decimal (s : string) : option number :=
  match s with
  | String "0" (String c (String d r)) =>
      let n := code c in
      let radix :=
        if (n =? 120)%N || (n =? 88)%N then Some 16%N
        else if (n =? 111)%N || (n =? 79)%N then Some 8%N
        else if (n =? 98)%N || (n =? 66)%N then Some 2%N
        else None in
      match radix with
      | Some b =>
          match radix_digits b (String d r) 0%N with
          | Some v => Some (Fin (inject_Z (Z.of_N v)))
          | None => Some NaN
          end
      | None => None
      end
  | _ => None
  end.

(** ToNumber on a string (StringToNumber): the whole string, white space
    trimmed on both sides, has to be a numeric literal; the empty string is
    0. *)
Definition StringToNumber (s : string) : number :=
  match trim s with
  | EmptyString => Fin 0
  | t =>
      match non_decimal t with
      | Some n => n
      | None =>
          match str_decimal t with
          | Some (n, EmptyString) => n
          | _ => NaN
          end
      end
  end.

(** *** Values, property access and comparison *)

(** The values a field path can resolve to: [undefined], a number, a string
    or a plain object built from JSON. *)
Inductive value : Type :=
  | VUndef
  | VNum (n : number)
  | VStr (s : string)
  | VObj (fields : props)
with props : Type :=
  | PNil
  | PCons (k : string) (v : value) (rest : props).

Fixpoint own_property (fields : props) (k : string) : value :=
  match fields with
  | PCons k' v rest => if String.eqb k' k then v else own_property rest k
  | PNil => VUndef
  end.

(** [v?.[k]].  Only own data properties are modelled: this is exact for every
    key that is not the name of a property of [Object.prototype] or
    [String.prototype], in particular for the field names of the wire
    interfaces. *)
Definition get (v : value) (k : string) : value :=
  match v with
  | VObj fields => own_property fields k
  | _ => VUndef
  end.

(** [typeof v === 'string']. *)
Definition is_string (v : value) : bool :=
  match v with VStr _ => true | _ => false end.

(** ToPrimitive: a plain object becomes the string ["[object Object]"]. *)
Definition ToPrimitive (v : value) : value :=
  match v with
  | VObj _ => VStr "[object Object]"
  | other => other
  end.

(** ToNumber on a primitive. *)
Definition ToNumber (v : value) : number :=
  match v with
  | VUndef => NaN
  | VNum n => n
  | VStr s => StringToNumber s
  | VObj _ => NaN
  end.

(** The relational operator [x < y]: two strings compare by code units,
    anything else numerically; [x > y] is [lt y x]. *)
Definition lt (x y : value) : bool :=
  match ToPrimitive x, ToPrimitive y with
  | VStr a, VStr b => str_lt a b
  | px, py => num_lt (ToNumber px) (ToNumber py)
  end.

(** [a || b] where [a] may be [undefined] or a string. *)
Definition or_else (a : option string) (b : string) : string :=
  match a with
  | Some s => if str_truthy s then s else b
  | None => b
  end.

(** *** Arrays *)

(** [l.slice(start, end)] for integral arguments: a negative index counts
    from the end of the array, both indices are clamped to [0, length]. *)
Definition slice {A : Type} (l : list A) (start end_ : Z) : list A :=
  let len := Z.of_nat (length l) in
  let k := if start <? 0 then Z.max (len + start) 0 else Z.min start len in
  let final := if end_ <? 0 then Z.max (len + end_) 0 else Z.min end_ len in
  take (Z.to_nat (final - k)) (drop (Z.to_nat k) l).

(** [String.prototype.split] on a one-character separator. *)
Fixpoint split_on (sep : ascii) (s : string) : list string :=
  match s with
  | EmptyString => [EmptyString]
  | String c r =>
      if Ascii.eqb c sep then EmptyString :: split_on sep r
      else
        match split_on sep r with
        | w :: ws => String c w :: ws
        | [] => [String c EmptyString]
        end
  end.

Section Sort.
Context {A : Type} (comparefn : A -> A -> Z).

(** [x] goes in front of the first element it is not greater than. *)
Fixpoint sort_insert (x : A) (l : list A) : list A :=
  match l with
  | [] => [x]
  | y :: ys => if 0 <? comparefn x y then y :: sort_insert x ys else x :: l
  end.

(** [Array.prototype.sort(comparefn)].  ECMAScript requires the sort to be
    stable; for a consistent comparator this fixes the result, which is the
    one computed here by insertion.  (For an inconsistent comparator the
    standard leaves the order to the implementation.) *)
Fixpoint sort (l : list A) : list A :=
  match l with
  | [] => []
  | x :: xs => sort_insert x (sort xs)
  end.
End Sort.

End JS.

(** ** Wire data *)

Record FourPillarScore : Type := {
  historical_returns : string;
  risk_adjusted_returns : string;
  fundamentals : string;
  dividends : string;
  overall_score : string
}.

(** The keys ['52_week_high'] and ['52_week_low'] are spelled
    [_52_week_high] and [_52_week_low]. *)
Record KeyMetrics : Type := {
  current_price : string;
  pe_ratio : string;
  dividend_yield : string;
  _52_week_high : string;
  _52_week_low : string
}.

Record RankedInvestment : Type := {
  symbol : string;
  name : string;
  market : string;
  asset_type : string;
  four_pillar_score : FourPillarScore;
  recommendation : string;
  recommendation_rationale : string;
  key_metrics : KeyMetrics
}.

(** [chart_data: any]; the component reads [data[0].x] and [data[0].y]. *)
Record ChartData : Type := {
  chart_x : list string;
  chart_y : list Q
}.

(** The interface declares every field; the component guards the ones below
    with [||], [?.] and [!], so they are allowed to be missing. *)
Record AnalysisResult : Type := {
  conversational_insight : option string;
  analysis_summary : option string;
  ranked_investments : option (list RankedInvestment);
  chart_data : option ChartData;
  csv_export_data : option string
}.

Record AgentMetadata : Type := {
  agent_name : string;
  agent_timestamp : string;
  markets_analyzed : list string;
  analysis_type : option string
}.

Inductive Role : Type := user | assistant.

(** [timestamp: Date] is the time value in milliseconds. *)
Record ChatMessage : Type := {
  role : Role;
  content : string;
  timestamp : Z;
  data : option AnalysisResult;
  metadata : option AgentMetadata
}.

Record MarketStats : Type := {
  NSE : Q;
  BSE : Q;
  CMX : Q;
  US : Q
}.

Inductive Direction : Type := asc | desc.

Record SortConfig : Type := {
  key : string;
  direction : Direction
}.

(** The objects as [JS] values, for the dynamic lookups of the sort. *)
Definition FourPillarScore_value (s : FourPillarScore) : JS.value :=
  JS.VObj
    (JS.PCons "historical_returns" (JS.VStr (historical_returns s))
    (JS.PCons "risk_adjusted_returns" (JS.VStr (risk_adjusted_returns s))
    (JS.PCons "fundamentals" (JS.VStr (fundamentals s))
    (JS.PCons "dividends" (JS.VStr (dividends s))
    (JS.PCons "overall_score" (JS.VStr (overall_score s)) JS.PNil))))).

Definition KeyMetrics_value (m : KeyMetrics) : JS.value :=
  JS.VObj
    (JS.PCons "current_price" (JS.VStr (current_price m))
    (JS.PCons "pe_ratio" (JS.VStr (pe_ratio m))
    (JS.PCons "dividend_yield" (JS.VStr (dividend_yield m))
    (JS.PCons "52_week_high" (JS.VStr (_52_week_high m))
    (JS.PCons "52_week_low" (JS.VStr (_52_week_low m)) JS.PNil))))).

Definition RankedInvestment_value (inv : RankedInvestment) : JS.value :=
  JS.VObj
    (JS.PCons "symbol" (JS.VStr (symbol inv))
    (JS.PCons "name" (JS.VStr (name inv))
    (JS.PCons "market" (JS.VStr (market inv))
    (JS.PCons "asset_type" (JS.VStr (asset_type inv))
    (JS.PCons "four_pillar_score" (FourPillarScore_value (four_pillar_score inv))
    (JS.PCons "recommendation" (JS.VStr (recommendation inv))
    (JS.PCons "recommendation_rationale" (JS.VStr (recommendation_rationale inv))
    (JS.PCons "key_metrics" (KeyMetrics_value (key_metrics inv)) JS.PNil)))))))).

(** The field names of the wire interfaces, and the sort keys made of them
    (the keys the table headers pass to [handleSort] are ['symbol'], ['name']
    and ['four_pillar_score.overall_score']). *)
Definition wire_fields : list string :=
  ["symbol"; "name"; "market"; "asset_type"; "four_pillar_score";
   "recommendation"; "recommendation_rationale"; "key_metrics";
   "historical_returns"; "risk_adjusted_returns"; "fundamentals"; "dividends";
   "overall_score"; "current_price"; "pe_ratio"; "dividend_yield";
   "52_week_high"; "52_week_low"].

Definition wire_path (k : string) : bool :=
  forallb (fun seg => existsb (String.eqb seg) wire_fields) (JS.split_on "." k).

(** ** Component state *)

Record Home : Type := {
  sidebarOpen : bool;
  loading : bool;
  chatMessages : list ChatMessage;
  inputMessage : string;
  analysisData : option AnalysisResult;
  selectedInvestment : option RankedInvestment;
  modalOpen : bool;
  currentPage : Z;
  selectedMarkets : list string;
  selectedAssetTypes : list string;
  riskLevel : string;
  sortConfig : SortConfig;
  marketStats : MarketStats
}.

Definition AGENT_ID : string := "6986ef8566daebcd26150dc3".

(** The state of the first render. *)
Definition initial : Home := {|
  sidebarOpen := true;
  loading := false;
  chatMessages := [];
  inputMessage := "";
  analysisData := None;
  selectedInvestment := None;
  modalOpen := false;
  currentPage := 1;
  selectedMarkets := ["NSE"; "BSE"; "CMX"; "US"];
  selectedAssetTypes := ["stock"; "mutual_fund"; "etf"];
  riskLevel := "Medium";
  sortConfig := {| key := "four_pillar_score.overall_score"; direction := desc |};
  marketStats := {| NSE := 85 # 100; BSE := 12 # 10; CMX := - (3 # 10); US := 65 # 100 |}
|}.

(** The state setters the handlers call. *)
Definition setLoading (b : bool) (st : Home) : Home := {|
  sidebarOpen := sidebarOpen st; loading := b;
  chatMessages := chatMessages st; inputMessage := inputMessage st;
  analysisData := analysisData st; selectedInvestment := selectedInvestment st;
  modalOpen := modalOpen st; currentPage := currentPage st;
  selectedMarkets := selectedMarkets st;
  selectedAssetTypes := selectedAssetTypes st; riskLevel := riskLevel st;
  sortConfig := sortConfig st; marketStats := marketStats st |}.

Definition setChatMessages (f : list ChatMessage -> list ChatMessage) (st : Home) : Home := {|
  sidebarOpen := sidebarOpen st; loading := loading st;
  chatMessages := f (chatMessages st); inputMessage := inputMessage st;
  analysisData := analysisData st; selectedInvestment := selectedInvestment st;
  modalOpen := modalOpen st; currentPage := currentPage st;
  selectedMarkets := selectedMarkets st;
  selectedAssetTypes := selectedAssetTypes st; riskLevel := riskLevel st;
  sortConfig := sortConfig st; marketStats := marketStats st |}.

Definition setInputMessage (s : string) (st : Home) : Home := {|
  sidebarOpen := sidebarOpen st; loading := loading st;
  chatMessages := chatMessages st; inputMessage := s;
  analysisData := analysisData st; selectedInvestment := selectedInvestment st;
  modalOpen := modalOpen st; currentPage := currentPage st;
  selectedMarkets := selectedMarkets st;
  selectedAssetTypes := selectedAssetTypes st; riskLevel := riskLevel st;
  sortConfig := sortConfig st; marketStats := marketStats st |}.

Definition setAnalysisData (d : option AnalysisResult) (st : Home) : Home := {|
  sidebarOpen := sidebarOpen st; loading := loading st;
  chatMessages := chatMessages st; inputMessage := inputMessage st;
  analysisData := d; selectedInvestment := selectedInvestment st;
  modalOpen := modalOpen st; currentPage := currentPage st;
  selectedMarkets := selectedMarkets st;
  selectedAssetTypes := selectedAssetTypes st; riskLevel := riskLevel st;
  sortConfig := sortConfig st; marketStats := marketStats st |}.

Definition setCurrentPage (f : Z -> Z) (st : Home) : Home := {|
  sidebarOpen := sidebarOpen st; loading := loading st;
  chatMessages := chatMessages st; inputMessage := inputMessage st;
  analysisData := analysisData st; selectedInvestment := selectedInvestment st;
  modalOpen := modalOpen st; currentPage := f (currentPage st);
  selectedMarkets := selectedMarkets st;
  selectedAssetTypes := selectedAssetTypes st; riskLevel := riskLevel st;
  sortConfig := sortConfig st; marketStats := marketStats st |}.

(** ** The derived table: filter, sort, paginate *)

(** [ITEMS_PER_PAGE] of [src/unnamed/part_000]; [src/app/page.tsx] has 20. *)
Definition ITEMS_PER_PAGE : Z := 10.

(** [l.includes(x)] on an array of strings. *)
Definition includes (l : list string) (x : string) : bool :=
  existsb (String.eqb x) l.

Definition marketMatch (markets : list string) (inv : RankedInvestment) : bool :=
  Nat.eqb (length markets) 0 || includes markets (market inv).

Definition assetMatch (assetTypes : list string) (inv : RankedInvestment) : bool :=
  Nat.eqb (length assetTypes) 0 || includes assetTypes (asset_type inv).

(** The callback of [ranked_investments.filter]. *)
Definition filter_callback (markets assetTypes : list string) (inv : RankedInvestment) : bool :=
  marketMatch markets inv && assetMatch assetTypes inv.

(** [for (const key of keys) aVal = aVal?.[key]]. *)
Definition resolve (keys : list string) (v : JS.value) : JS.value :=
  fold_left JS.get keys v.

(** [if (typeof aVal === 'string') aVal = parseFloat(aVal) || aVal]. *)
Definition numeric_or_self (v : JS.value) : JS.value :=
  match v with
  | JS.VStr s =>
      let n := JS.parseFloat s in
      if JS.num_truthy n then JS.VNum n else JS.VStr s
  | other => other
  end.

(** The value the sort callback compares for one investment. *)
Definition sort_value (k : string) (inv : RankedInvestment) : JS.value :=
  numeric_or_self (resolve (JS.split_on "." k) (RankedInvestment_value inv)).

(** The callback of [filtered.sort]. *)
Definition comparefn (cfg : SortConfig) (a b : RankedInvestment) : Z :=
  let aVal := sort_value (key cfg) a in
  let bVal := sort_value (key cfg) b in
  if JS.lt aVal bVal then
    match direction cfg with asc => -1 | desc => 1 end
  else if JS.lt bVal aVal then
    match direction cfg with asc => 1 | desc => -1 end
  else 0.

(** [let filtered = ranked_investments.filter(...)]. *)
Definition filtered (markets assetTypes : list string)
    (invs : list RankedInvestment) : list RankedInvestment :=
  List.filter (filter_callback markets assetTypes) invs.

(** The body of [getFilteredAndSortedInvestments] on the values it reads. *)
Definition filtered_and_sorted (data : option AnalysisResult)
    (markets assetTypes : list string) (cfg : SortConfig) : list RankedInvestment :=
  match data with
  | None => []
  | Some d =>
      match ranked_investments d with
      | None => []
      | Some invs => JS.sort (comparefn cfg) (filtered markets assetTypes invs)
      end
  end.

Definition getFilteredAndSortedInvestments (st : Home) : list RankedInvestment :=
  filtered_and_sorted (analysisData st) (selectedMarkets st)
    (selectedAssetTypes st) (sortConfig st).

(** [Math.ceil(n / p)] for integers [n] and [p], [p] positive. *)
Definition ceil_quotient (n p : Z) : Z :=
  Qceiling (inject_Z n / inject_Z p).

(** The two lines after [filteredInvestments], for any list, page size and
    page number. *)
Definition total_pages {A : Type} (items : list A) (pageSize : Z) : Z :=
  ceil_quotient (Z.of_nat (length items)) pageSize.

Definition page_items {A : Type} (items : list A) (pageSize page : Z) : list A :=
  JS.slice items ((page - 1) * pageSize) (page * pageSize).

Definition filteredInvestments (st : Home) : list RankedInvestment :=
  getFilteredAndSortedInvestments st.

Definition totalPages (st : Home) : Z :=
  total_pages (filteredInvestments st) ITEMS_PER_PAGE.

Definition paginatedInvestments (st : Home) : list RankedInvestment :=
  page_items (filteredInvestments st) ITEMS_PER_PAGE (currentPage st).

(** ** Filter, sort and page controls *)

Definition setSelectedMarkets (f : list string -> list string) (st : Home) : Home := {|
  sidebarOpen := sidebarOpen st; loading := loading st;
  chatMessages := chatMessages st; inputMessage := inputMessage st;
  analysisData := analysisData st; selectedInvestment := selectedInvestment st;
  modalOpen := modalOpen st; currentPage := currentPage st;
  selectedMarkets := f (selectedMarkets st);
  selectedAssetTypes := selectedAssetTypes st; riskLevel := riskLevel st;
  sortConfig := sortConfig st; marketStats := marketStats st |}.

Definition setSelectedAssetTypes (f : list string -> list string) (st : Home) : Home := {|
  sidebarOpen := sidebarOpen st; loading := loading st;
  chatMessages := chatMessages st; inputMessage := inputMessage st;
  analysisData := analysisData st; selectedInvestment := selectedInvestment st;
  modalOpen := modalOpen st; currentPage := currentPage st;
  selectedMarkets := selectedMarkets st;
  selectedAssetTypes := f (selectedAssetTypes st); riskLevel := riskLevel st;
  sortConfig := sortConfig st; marketStats := marketStats st |}.

Definition setRiskLevel (r : string) (st : Home) : Home := {|
  sidebarOpen := sidebarOpen st; loading := loading st;
  chatMessages := chatMessages st; inputMessage := inputMessage st;
  analysisData := analysisData st; selectedInvestment := selectedInvestment st;
  modalOpen := modalOpen st; currentPage := currentPage st;
  selectedMarkets := selectedMarkets st;
  selectedAssetTypes := selectedAssetTypes st; riskLevel := r;
  sortConfig := sortConfig st; marketStats := marketStats st |}.

Definition setSortConfig (f : SortConfig -> SortConfig) (st : Home) : Home := {|
  sidebarOpen := sidebarOpen st; loading := loading st;
  chatMessages := chatMessages st; inputMessage := inputMessage st;
  analysisData := analysisData st; selectedInvestment := selectedInvestment st;
  modalOpen := modalOpen st; currentPage := currentPage st;
  selectedMarkets := selectedMarkets st;
  selectedAssetTypes := selectedAssetTypes st; riskLevel := riskLevel st;
  sortConfig := f (sortConfig st); marketStats := marketStats st |}.

(** [prev.includes(x) ? prev.filter(m => m !== x) : [...prev, x]]. *)
Definition toggle (x : string) (prev : list string) : list string :=
  if includes prev x then List.filter (fun m => negb (String.eqb m x)) prev
  else prev ++ [x].

Definition toggleMarket (m : string) (st : Home) : Home :=
  setSelectedMarkets (toggle m) st.

Definition toggleAssetType (t : string) (st : Home) : Home :=
  setSelectedAssetTypes (toggle t) st.

Definition handleClearFilters (st : Home) : Home :=
  setCurrentPage (fun _ => 1)
    (setRiskLevel "Medium"
       (setSelectedAssetTypes (fun _ => ["stock"; "mutual_fund"; "etf"])
          (setSelectedMarkets (fun _ => ["NSE"; "BSE"; "CMX"; "US"]) st))).

Definition handleSort (k : string) (st : Home) : Home :=
  setSortConfig
    (fun prev => {|
       key := k;
       direction :=
         if String.eqb (key prev) k
            && match direction prev with asc => true | desc => false end
         then desc else asc |}) st.

(** The two pagination buttons: [p => Math.max(1, p - 1)] and
    [p => Math.min(totalPages, p + 1)]. *)
Definition previousPage (st : Home) : Home :=
  setCurrentPage (fun p => Z.max 1 (p - 1)) st.

Definition nextPage (st : Home) : Home :=
  setCurrentPage (fun p => Z.min (totalPages st) (p + 1)) st.

(** ** Score codecs *)


(** The object literal of [pillarToPercentage], in source order. *)
Definition pillar_map : list (string * Z) :=
  [("Excellent", 95); ("Very Good", 85); ("Strong", 80); ("Good", 70);
   ("Moderate", 60); ("Solid (hard asset)", 75); ("Index-based", 85);
   ("N/A", 0)].

(** The names every object literal inherits from [Object.prototype]; under
    each of them [map[pillar]] reads a function or an object. *)
Definition object_prototype_names : list string :=
  ["constructor"; "hasOwnProperty"; "isPrototypeOf"; "propertyIsEnumerable";
   "toLocaleString"; "toString"; "valueOf"; "__proto__"; "__defineGetter__";
   "__defineSetter__"; "__lookupGetter__"; "__lookupSetter__"].

Fixpoint assoc (k : string) (l : list (string * Z)) : option Z :=
  match l with
  | (k', v) :: rest => if String.eqb k' k then Some v else assoc k rest
  | [] => None
  end.

(** [pillarToPercentage]: [map[pillar] || 50].  [None] stands for the one
    case in which the result is not a number: [pillar] names an inherited
    member, which is truthy and returned as it is. *)
Definition pillarToPercentage (pillar : string) : option Z :=
  match assoc pillar pillar_map with
  | Some v => if v =? 0 then Some 50 else Some v
  | None => if includes object_prototype_names pillar then None else Some 50
  end.

(** ** Arrays in a store

    [filter] and [slice] allocate a new array; [sort] works in place on the
    array it is called on.  The store keeps the arrays by reference, so that
    what a derivation does to the array held in [analysisData] can be
    observed. *)

Module Heap.

(** Addresses, and the store of the arrays of investments. *)
Abbreviation loc := nat (only parsing).

Abbreviation store := (gmap nat (list RankedInvestment)) (only parsing).

(** A computation on the store; [None] when a reference is dangling. *)
Definition M (A : Type) : Type := store -> option (A * store).

#[export] Instance M_ret : MRet M := fun A a h => Some (a, h).

#[export] Instance M_bind : MBind M := fun A B f m h =>
  match m h with
  | Some (a, h') => f a h'
  | None => None
  end.

(** A new array with the given elements. *)
Definition new_array (l : list RankedInvestment) : M loc := fun h =>
  let r := fresh (dom h) in Some (r, <[r := l]> h).

Definition read (r : loc) : M (list RankedInvestment) := fun h =>
  match h !! r with
  | Some l => Some (l, h)
  | None => None
  end.

Definition write (r : loc) (l : list RankedInvestment) : M unit := fun h =>
  Some (tt, <[r := l]> h).

(** [r.filter(f)]: a new array. *)
Definition array_filter (f : RankedInvestment -> bool) (r : loc) : M loc :=
  l ← read r; new_array (List.filter f l).

(** [r.sort(comparefn)]: sorts [r] itself and returns it. *)
Definition array_sort (comparefn : RankedInvestment -> RankedInvestment -> Z)
    (r : loc) : M loc :=
  l ← read r; write r (JS.sort comparefn l);; mret r.

(** [r.slice(start, end)]: a new array. *)
Definition array_slice (r : loc) (start end_ : Z) : M loc :=
  l ← read r; new_array (JS.slice l start end_).

(** [r.length]. *)
Definition array_length (r : loc) : M Z :=
  l ← read r; mret (Z.of_nat (length l)).

(** [getFilteredAndSortedInvestments]; [ranked] is the array
    [analysisData?.ranked_investments], when there is one. *)
Definition getFilteredAndSortedInvestments (ranked : option loc)
    (markets assetTypes : list string) (cfg : SortConfig) : M loc :=
  match ranked with
  | None => new_array []
  | Some r =>
      filtered ← array_filter (filter_callback markets assetTypes) r;
      array_sort (comparefn cfg) filtered;;
      mret filtered
  end.

(** One derivation of the table, as every render performs it: the page shown
    and the number of pages. *)
Definition derive (ranked : option loc) (markets assetTypes : list string)
    (cfg : SortConfig) (pageSize page : Z) : M (loc * Z) :=
  filteredInvestments ← getFilteredAndSortedInvestments ranked markets assetTypes cfg;
  len ← array_length filteredInvestments;
  let totalPages := ceil_quotient len pageSize in
  paginatedInvestments ←
    array_slice filteredInvestments ((page - 1) * pageSize) (page * pageSize);
  mret (paginatedInvestments, totalPages).

End Heap.

(** ** The agent call *)

(** Modelled from the spec: the declaration of [callAIAgent] ([@/lib/aiAgent])
    is not among the sources.  The payload follows section 6 of the spec,
    [{status, result?, metadata?, message?}]; the wrapper follows the uses in
    [handleSendMessage] ([result.success], [result.response]). *)
Module Agent.

Record Payload : Type := {
  status : string;
  result : option AnalysisResult;
  metadata : option AgentMetadata;
  message : option string
}.

Record CallResult : Type := {
  success : bool;
  response : Payload
}.

End Agent.

(** What [await callAIAgent(...)] does: the promise is rejected (the [await]
    throws) or it is fulfilled with a result. *)
Inductive AgentOutcome : Type :=
  | Rejected
  | Resolved (r : Agent.CallResult).

(** What a handler run gets from outside: the agent, and the clock read by
    [new Date()] before and after the [await]. *)
Record Env : Type := {
  callAIAgent : string -> string -> AgentOutcome;
  submit_time : Z;
  reply_time : Z
}.

(** ** Handlers as state transformers that may throw *)

(** The component state, and the calls made to the agent so far. *)
Record World : Type := {
  home : Home;
  agent_calls : list (string * string)
}.

Inductive Completion (A : Type) : Type :=
  | Normal (a : A)
  | Thrown.
Arguments Normal {A} a.
Arguments Thrown {A}.

Definition Eff (A : Type) : Type := World -> Completion A * World.

#[export] Instance Eff_ret : MRet Eff := fun A a w => (Normal a, w).

#[export] Instance Eff_bind : MBind Eff := fun A B f m w =>
  match m w with
  | (Normal a, w') => f a w'
  | (Thrown, w') => (Thrown, w')
  end.

Definition throw {A : Type} : Eff A := fun w => (Thrown, w).

(** A state setter as an effect. *)
Definition set (f : Home -> Home) : Eff unit := fun w =>
  (Normal tt, {| home := f (home w); agent_calls := agent_calls w |}).

(** [try { body } catch { handler } finally { final }]. *)
Definition try_catch_finally (body handler final : Eff unit) : Eff unit := fun w =>
  match body w with
  | (Normal _, w1) => final w1
  | (Thrown, w1) =>
      match handler w1 with
      | (Normal _, w2) => final w2
      | (Thrown, w2) =>
          match final w2 with
          | (_, w3) => (Thrown, w3)
          end
      end
  end.

(** [await callAIAgent(msg, id)]: the call is recorded; a rejected promise
    throws. *)
Definition await_callAIAgent (env : Env) (msg id : string) : Eff Agent.CallResult := fun w =>
  let w' := {| home := home w; agent_calls := agent_calls w ++ [(msg, id)] |} in
  match callAIAgent env msg id with
  | Rejected => (Thrown, w')
  | Resolved r => (Normal r, w')
  end.

(** Reading a property of [o]: a TypeError when [o] is [undefined]. *)
Definition defined {A : Type} (o : option A) : Eff A :=
  match o with
  | Some a => mret a
  | None => throw
  end.

(** [a || b] where both may be [undefined] or a string. *)
Definition or_undefined (a b : option string) : option string :=
  match a with
  | Some s => if JS.str_truthy s then a else b
  | None => b
  end.

(** ToBoolean of an optional string. *)
Definition truthy (a : option string) : bool :=
  match a with
  | Some s => JS.str_truthy s
  | None => false
  end.

Definition append (m : ChatMessage) (prev : list ChatMessage) : list ChatMessage :=
  prev ++ [m].

(** [const messageToSend = message || inputMessage.trim()]. *)
Definition messageToSend (message : option string) (st : Home) : string :=
  JS.or_else message (JS.trim (inputMessage st)).

(** [handleSendMessage] of [src/unnamed/part_000]. *)
Definition handleSendMessage (env : Env) (message : option string) : Eff unit := fun w =>
  let messageToSend := messageToSend message (home w) in
  if negb (JS.str_truthy messageToSend) && negb (truthy message) then (Normal tt, w)
  else
    (set (setLoading true);;
     let userMessage := {|
       role := user; content := messageToSend; timestamp := submit_time env;
       data := None; metadata := None |} in
     set (setChatMessages (append userMessage));;
     set (setInputMessage "");;
     try_catch_finally
       (result ← await_callAIAgent env messageToSend AGENT_ID;
        if Agent.success result
           && String.eqb (Agent.status (Agent.response result)) "success" then
          let data := Agent.result (Agent.response result) in
          let metadata := Agent.metadata (Agent.response result) in
          d ← defined data;
          let assistantMessage := {|
            role := assistant;
            content :=
              JS.or_else
                (or_undefined (conversational_insight d) (analysis_summary d))
                "Analysis complete.";
            timestamp := reply_time env;
            data := data; metadata := metadata |} in
          set (setChatMessages (append assistantMessage));;
          set (setAnalysisData data);;
          set (setCurrentPage (fun _ => 1))
        else
          let errorMessage := {|
            role := assistant;
            content :=
              JS.or_else (Agent.message (Agent.response result))
                "Sorry, I encountered an error processing your request.";
            timestamp := reply_time env;
            data := None; metadata := None |} in
          set (setChatMessages (append errorMessage)))
       (let errorMessage := {|
          role := assistant;
          content := "Network error. Please try again.";
          timestamp := reply_time env;
          data := None; metadata := None |} in
        set (setChatMessages (append errorMessage)))
       (set (setLoading false))) w.

(** The copy of the component in [src/app/page.tsx], where it differs. *)
Module PageTsx.

Definition ITEMS_PER_PAGE : Z := 20.

Definition totalPages (st : Home) : Z :=
  total_pages (filteredInvestments st) ITEMS_PER_PAGE.

Definition paginatedInvestments (st : Home) : list RankedInvestment :=
  page_items (filteredInvestments st) ITEMS_PER_PAGE (currentPage st).

Definition nextPage (st : Home) : Home :=
  setCurrentPage (fun p => Z.min (totalPages st) (p + 1)) st.

(** The [reduce] over [data.ranked_investments]: the number of investments
    per market.  Its result is bound to a local constant and never used. *)
Fixpoint count_markets (invs : list RankedInvestment) (acc : list (string * Z)) : list (string * Z) :=
  match invs with
  | [] => acc
  | inv :: rest =>
      let n := match assoc (market inv) acc with Some c => c | None => 0 end in
      count_markets rest
        ((market inv, n + 1) :: List.filter (fun kv => negb (String.eqb (fst kv) (market inv))) acc)
  end.

(** [handleSendMessage] of [src/app/page.tsx]: the reply text has no
    [analysis_summary] alternative and the page is not reset. *)
Definition handleSendMessage (env : Env) (message : option string) : Eff unit := fun w =>
  let messageToSend := messageToSend message (home w) in
  if negb (JS.str_truthy messageToSend) && negb (truthy message) then (Normal tt, w)
  else
    (set (setLoading true);;
     let userMessage := {|
       role := user; content := messageToSend; timestamp := submit_time env;
       data := None; metadata := None |} in
     set (setChatMessages (append userMessage));;
     set (setInputMessage "");;
     try_catch_finally
       (result ← await_callAIAgent env messageToSend AGENT_ID;
        if Agent.success result
           && String.eqb (Agent.status (Agent.response result)) "success" then
          let data := Agent.result (Agent.response result) in
          let metadata := Agent.metadata (Agent.response result) in
          d ← defined data;
          let assistantMessage := {|
            role := assistant;
            content := JS.or_else (conversational_insight d) "Analysis complete.";
            timestamp := reply_time env;
            data := data; metadata := metadata |} in
          set (setChatMessages (append assistantMessage));;
          set (setAnalysisData data);;
          match ranked_investments d with
          | Some invs => let markets := count_markets invs [] in mret tt
          | None => mret tt
          end
        else
          let errorMessage := {|
            role := assistant;
            content :=
              JS.or_else (Agent.message (Agent.response result))
                "Sorry, I encountered an error processing your request.";
            timestamp := reply_time env;
            data := None; metadata := None |} in
          set (setChatMessages (append errorMessage)))
       (let errorMessage := {|
          role := assistant;
          content := "Network error. Please try again.";
          timestamp := reply_time env;
          data := None; metadata := None |} in
        set (setChatMessages (append errorMessage)))
       (set (setLoading false))) w.

End PageTsx.

(** ** CSV export *)

Record Blob : Type := {
  blobParts : list string;
  blob_type : string
}.

(** The anchor element the handler builds. *)
Record Anchor : Type := {
  href : string;
  download : string
}.

(** What the handler does to the document and to [window.URL], in order. *)
Inductive DomEffect : Type :=
  | createObjectURL (b : Blob)
  | appendChild (a : Anchor)
  | click (a : Anchor)
  | removeChild (a : Anchor)
  | revokeObjectURL (url : string).

(** [handleExportCSV].  [iso] is [new Date().toISOString()] and [url] the
    object URL that [createObjectURL] hands out. *)
Definition handleExportCSV (iso url : string) (st : Home) : list DomEffect :=
  match analysisData st with
  | None => []
  | Some d =>
      if negb (truthy (csv_export_data d)) then []
      else
        match csv_export_data d with
        | None => []
        | Some csv =>
            let blob := {| blobParts := [csv]; blob_type := "text/csv" |} in
            let a := {|
              href := url;
              download :=
                "financial_analysis_" ++ hd "" (JS.split_on "T" iso) ++ ".csv" |} in
            [createObjectURL blob; appendChild a; click a; removeChild a;
             revokeObjectURL url]
        end
  end.

(** ** Shapes of entries and of the world after a run *)

(** The user entry [handleSendMessage] appends before the call. *)
Definition userMessage (env : Env) (text : string) : ChatMessage := {|
  role := user; content := text; timestamp := submit_time env;
  data := None; metadata := None |}.

(** An assistant entry without attachments. *)
Definition errorMessage (env : Env) (text : string) : ChatMessage := {|
  role := assistant; content := text; timestamp := reply_time env;
  data := None; metadata := None |}.

Ltac run_effects :=
  unfold mbind, mret, Eff_bind, Eff_ret, set, try_catch_finally,
    await_callAIAgent, defined, throw.

(** The world after a run that passed the guard: the call is recorded, the
    user entry is appended, [after_reply] is what the [try] and [catch]
    blocks did to the state, and the [finally] block has cleared [loading]. *)
Definition answered (env : Env) (message : option string) (w : World)
    (after_reply : Home -> Home) : World := {|
  home :=
    setLoading false
      (after_reply
         (setInputMessage ""
            (setChatMessages (append (userMessage env (messageToSend message (home w))))
               (setLoading true (home w)))));
  agent_calls := agent_calls w ++ [(messageToSend message (home w), AGENT_ID)] |}.

(** The reply entry of the success branch in [src/unnamed/part_000]. *)
Definition assistantMessage (env : Env) (r : Agent.CallResult) (d : AnalysisResult) : ChatMessage := {|
  role := assistant;
  content :=
    JS.or_else (or_undefined (conversational_insight d) (analysis_summary d))
      "Analysis complete.";
  timestamp := reply_time env;
  data := Agent.result (Agent.response r);
  metadata := Agent.metadata (Agent.response r) |}.

(** The reply entry of the success branch in [src/app/page.tsx]. *)
Definition assistantMessage_page_tsx (env : Env) (r : Agent.CallResult) (d : AnalysisResult) : ChatMessage := {|
  role := assistant;
  content := JS.or_else (conversational_insight d) "Analysis complete.";
  timestamp := reply_time env;
  data := Agent.result (Agent.response r);
  metadata := Agent.metadata (Agent.response r) |}.

(** The two copies of the handler. *)
Definition handlers : list (Env -> option string -> Eff unit) :=
  [handleSendMessage; PageTsx.handleSendMessage].

(** The run takes the success branch and finds a [result] there. *)
Definition takes_success_branch (o : AgentOutcome) : bool :=
  match o with
  | Rejected => false
  | Resolved r =>
      Agent.success r && String.eqb (Agent.status (Agent.response r)) "success"
      && match Agent.result (Agent.response r) with Some _ => true | None => false end
  end.

(** ** Sample data *)

Definition investment (sym mkt kind overall yield : string) : RankedInvestment := {|
  symbol := sym; name := sym; market := mkt; asset_type := kind;
  four_pillar_score := {|
    historical_returns := "Strong"; risk_adjusted_returns := "Good";
    fundamentals := "Excellent"; dividends := "Moderate";
    overall_score := overall |};
  recommendation := "Buy"; recommendation_rationale := "";
  key_metrics := {|
    current_price := "100"; pe_ratio := "N/A"; dividend_yield := yield;
    _52_week_high := "120"; _52_week_low := "80" |} |}.

Definition sample_investments : list RankedInvestment :=
  [investment "RELIANCE" "NSE" "stock" "9" "10%";
   investment "AAPL" "US" "stock" "10" "9%";
   investment "NIFTYBEES" "NSE" "etf" "7.5" "1.2%"].

(** A result whose insight is empty and whose summary is not. *)
Definition sample_result : AnalysisResult := {|
  conversational_insight := Some "";
  analysis_summary := Some "Three candidates ranked.";
  ranked_investments := Some sample_investments;
  chart_data := None;
  csv_export_data := Some "symbol,score" |}.

Definition success_reply : Agent.CallResult := {|
  Agent.success := true;
  Agent.response := {|
    Agent.status := "success"; Agent.result := Some sample_result;
    Agent.metadata := None; Agent.message := None |} |}.

Definition failure_reply : Agent.CallResult := {|
  Agent.success := true;
  Agent.response := {|
    Agent.status := "failure"; Agent.result := None;
    Agent.metadata := None; Agent.message := Some "Quota exceeded." |} |}.

Definition env_of (o : AgentOutcome) : Env := {|
  callAIAgent := fun _ _ => o; submit_time := 1000; reply_time := 2000 |}.

(** A result with 45 investments of the US market, with distinct symbols. *)
Definition numbered (mkt : string) (i : nat) : RankedInvestment :=
  investment (mkt ++ pretty i) mkt "stock" "8" "2%".

Definition forty_five : AnalysisResult := {|
  conversational_insight := Some "Here are the buy recommendations.";
  analysis_summary := None;
  ranked_investments := Some (map (numbered "US") (seq 0 45));
  chart_data := None;
  csv_export_data := None |}.

(** A session that holds that result and has gone to page 3 with the Next
    button. *)
Definition on_page_3 : World := {|
  home := nextPage (nextPage (setAnalysisData (Some forty_five) initial));
  agent_calls := [] |}.

(** A session whose input field holds blanks only. *)
Definition blank_input : World := {|
  home := setInputMessage "   " initial;
  agent_calls := [] |}.

(** ** The filter as the spec words it *)

(** An investment passes when each axis is either unconstrained (the
    selection is empty) or contains the investment's value. *)
Definition passes (markets assetTypes : list string) (inv : RankedInvestment) : Prop :=
  (markets = [] \/ market inv ∈ markets) /\
  (assetTypes = [] \/ asset_type inv ∈ assetTypes).

(** [selects P l r]: [r] is the subsequence of [l] made of exactly the
    elements that satisfy [P], in the order and number in which they occur. *)
Inductive selects {A : Type} (P : A -> Prop) : list A -> list A -> Prop :=
  | selects_nil : selects P [] []
  | selects_keep x l r : P x -> selects P l r -> selects P (x :: l) (x :: r)
  | selects_drop x l r : ~ P x -> selects P l r -> selects P (x :: l) r.

(** A session with a stored result that carries a CSV payload. *)
Definition with_csv : Home := setAnalysisData (Some sample_result) initial.

(** ** Pagination as the spec words it *)

(** [totalPages = max(1, ceil(len/pageSize))], and the page is clamped to
    [1, totalPages] before the items are taken. *)
Definition paginate_spec {A : Type} (items : list A) (pageSize page : Z) : list A * Z :=
  let totalPages := Z.max 1 (ceil_quotient (Z.of_nat (length items)) pageSize) in
  let clamped := Z.max 1 (Z.min page totalPages) in
  (take (Z.to_nat pageSize) (drop (Z.to_nat ((clamped - 1) * pageSize)) items),
   totalPages).

(** ** Display percentages as the spec words them *)


(** ** The derivation on values *)

(** The table [getFilteredAndSortedInvestments] returns, given the contents
    of the stored array, if there is one. *)
Definition sorted_table (invs : option (list RankedInvestment))
    (markets assetTypes : list string) (cfg : SortConfig) : list RankedInvestment :=
  match invs with
  | Some l => JS.sort (comparefn cfg) (filtered markets assetTypes l)
  | None => []
  end.

(** The contents of the array [ranked] refers to. *)
Definition contents (h : Heap.store) (ranked : option Heap.loc) : option (list RankedInvestment) :=
  match ranked with
  | Some r => h !! r
  | None => None
  end.

(** A store that holds the sample investments at address 0. *)
Definition sample_store : Heap.store := {[ 0%nat := sample_investments ]}.

(** ** Kinds of sort values *)

(** What the comparison of two sort values depends on: both are numbers
    (other than NaN), both are strings, or both are neither. *)
Inductive Kind : Type := KNumber | KString | KOther.

Definition kind (v : JS.value) : option Kind :=
  match v with
  | JS.VNum n => if JS.isNaN n then None else Some KNumber
  | JS.VStr _ => Some KString
  | JS.VUndef | JS.VObj _ => Some KOther
  end.





(** ** The comparison rule as the spec words it *)





Definition by_score (d : Direction) : SortConfig :=
  {| key := "four_pillar_score.overall_score"; direction := d |}.

(** A result with 25 investments, 20 of the US market and 5 of NSE, with
    distinct symbols. *)
Definition twenty_five : AnalysisResult := {|
  conversational_insight := Some "Here are the buy recommendations.";
  analysis_summary := None;
  ranked_investments := Some (map (numbered "US") (seq 0 20) ++ map (numbered "NSE") (seq 0 5));
  chart_data := None;
  csv_export_data := None |}.

(** ** Order of occurrence *)

(** An occurrence of [a] comes before an occurrence of [b] in [l]. *)
Definition precedes {A : Type} (a b : A) (l : list A) : Prop :=
  exists l1 l2 l3, l = l1 ++ a :: l2 ++ b :: l3.

(** * The rest of the component *)

(** ** More of the ECMAScript fragment *)

(** [String.prototype.toLowerCase] on code units below 256: the letters A-Z
    and the capital letters of Latin-1 go to their small forms. *)
Definition lower_unit (c : ascii) : ascii :=
  let n := JS.code c in
  if ((65 <=? n) && (n <=? 90))%N
     || ((192 <=? n) && (n <=? 222) && negb (n =? 215))%N
  then ascii_of_N (n + 32) else c.

Fixpoint toLowerCase (s : string) : string :=
  match s with
  | EmptyString => EmptyString
  | String c r => String (lower_unit c) (toLowerCase r)
  end.

(** [s.replace(c, by)] for a one-character pattern: the first occurrence
    only. *)
Fixpoint replace_first (c : ascii) (by_ : string) (s : string) : string :=
  match s with
  | EmptyString => EmptyString
  | String x r =>
      if Ascii.eqb x c then by_ ++ r else String x (replace_first c by_ r)
  end.

(** [l.join(sep)]. *)
Fixpoint join (sep : string) (l : list string) : string :=
  match l with
  | [] => ""
  | [x] => x
  | x :: rest => x ++ sep ++ join sep rest
  end.

(** ** The remaining handlers *)

Definition setSidebarOpen (b : bool) (st : Home) : Home := {|
  sidebarOpen := b; loading := loading st;
  chatMessages := chatMessages st; inputMessage := inputMessage st;
  analysisData := analysisData st; selectedInvestment := selectedInvestment st;
  modalOpen := modalOpen st; currentPage := currentPage st;
  selectedMarkets := selectedMarkets st;
  selectedAssetTypes := selectedAssetTypes st; riskLevel := riskLevel st;
  sortConfig := sortConfig st; marketStats := marketStats st |}.

Definition setSelectedInvestment (i : option RankedInvestment) (st : Home) : Home := {|
  sidebarOpen := sidebarOpen st; loading := loading st;
  chatMessages := chatMessages st; inputMessage := inputMessage st;
  analysisData := analysisData st; selectedInvestment := i;
  modalOpen := modalOpen st; currentPage := currentPage st;
  selectedMarkets := selectedMarkets st;
  selectedAssetTypes := selectedAssetTypes st; riskLevel := riskLevel st;
  sortConfig := sortConfig st; marketStats := marketStats st |}.

Definition setModalOpen (b : bool) (st : Home) : Home := {|
  sidebarOpen := sidebarOpen st; loading := loading st;
  chatMessages := chatMessages st; inputMessage := inputMessage st;
  analysisData := analysisData st; selectedInvestment := selectedInvestment st;
  modalOpen := b; currentPage := currentPage st;
  selectedMarkets := selectedMarkets st;
  selectedAssetTypes := selectedAssetTypes st; riskLevel := riskLevel st;
  sortConfig := sortConfig st; marketStats := marketStats st |}.

(** The query [handleFullAnalysis] builds in [src/unnamed/part_000]. *)
Definition full_analysis_query (st : Home) : string :=
  let markets := join ", " (selectedMarkets st) in
  let assets := join ", " (map (replace_first "_" " ") (selectedAssetTypes st)) in
  "Give me " ++ toLowerCase (riskLevel st)
  ++ " risk investment recommendations for " ++ assets ++ " in " ++ markets
  ++ " markets for long-term growth".

(** [handleFullAnalysis] of [src/unnamed/part_000]. *)
Definition handleFullAnalysis (env : Env) : Eff unit := fun w =>
  handleSendMessage env (Some (full_analysis_query (home w))) w.

(** The query of [src/app/page.tsx]: the asset types as they are. *)
Definition full_analysis_query_page_tsx (st : Home) : string :=
  let markets := join ", " (selectedMarkets st) in
  let assets := join ", " (selectedAssetTypes st) in
  "Give me " ++ toLowerCase (riskLevel st)
  ++ " risk investment recommendations for " ++ assets ++ " in " ++ markets
  ++ " markets for long-term growth".

(** [handleFullAnalysis] of [src/app/page.tsx]. *)
Definition handleFullAnalysis_page_tsx (env : Env) : Eff unit := fun w =>
  PageTsx.handleSendMessage env (Some (full_analysis_query_page_tsx (home w))) w.

(** [getRecommendationStyle] of [src/unnamed/part_000]. *)
Definition getRecommendationStyle (rec : string) : string :=
  let lower := toLowerCase rec in
  if String.eqb lower "buy" then "default"
  else if String.eqb lower "hold" then "secondary"
  else if String.eqb lower "sell" then "destructive"
  else "outline".

(** [getRecommendationColor] of [src/app/page.tsx]. *)
Definition getRecommendationColor (rec : string) : string :=
  let lower := toLowerCase rec in
  if String.eqb lower "buy" then "bg-green-500/20 text-green-400 border border-green-500/50"
  else if String.eqb lower "hold" then "bg-yellow-500/20 text-yellow-400 border border-yellow-500/50"
  else if String.eqb lower "sell" then "bg-red-500/20 text-red-400 border border-red-500/50"
  else "bg-gray-500/20 text-gray-400 border border-gray-500/50".

(** The number shown in front of row [idx] of the page:
    [(currentPage - 1) * ITEMS_PER_PAGE + idx + 1]. *)
Definition row_number (st : Home) (idx : nat) : Z :=
  (currentPage st - 1) * ITEMS_PER_PAGE + Z.of_nat idx + 1.

(** ** The handler around its [await] *)

(** What [handleSendMessage] does before the [await]: nothing when the guard
    returns, otherwise the message to send and the state with [loading] set,
    the user entry appended and the input cleared. *)
Definition before_await (t : Z) (message : option string) (st : Home) : option (string * Home) :=
  let text := messageToSend message st in
  if negb (JS.str_truthy text) && negb (truthy message) then None
  else
    let userMessage := {|
      role := user; content := text; timestamp := t;
      data := None; metadata := None |} in
    Some (text,
          setInputMessage "" (setChatMessages (append userMessage) (setLoading true st))).

(** What it does once the awaited call has settled with [o], in
    [src/unnamed/part_000]: the rest of the [try] block or the [catch] block,
    then the [finally] block. *)
Definition after_await (t : Z) (o : AgentOutcome) (st : Home) : Home :=
  let network_error := {|
    role := assistant; content := "Network error. Please try again.";
    timestamp := t; data := None; metadata := None |} in
  setLoading false
    match o with
    | Rejected => setChatMessages (append network_error) st
    | Resolved result =>
        if Agent.success result
           && String.eqb (Agent.status (Agent.response result)) "success" then
          match Agent.result (Agent.response result) with
          | None => setChatMessages (append network_error) st
          | Some d =>
              let assistantMessage := {|
                role := assistant;
                content :=
                  JS.or_else
                    (or_undefined (conversational_insight d) (analysis_summary d))
                    "Analysis complete.";
                timestamp := t;
                data := Some d;
                metadata := Agent.metadata (Agent.response result) |} in
              setCurrentPage (fun _ => 1)
                (setAnalysisData (Some d)
                   (setChatMessages (append assistantMessage) st))
          end
        else
          let errorMessage := {|
            role := assistant;
            content :=
              JS.or_else (Agent.message (Agent.response result))
                "Sorry, I encountered an error processing your request.";
            timestamp := t; data := None; metadata := None |} in
          setChatMessages (append errorMessage) st
    end.

(** ** The page as a transition system

    The events a user (and the agent) can cause on the page of
    [src/unnamed/part_000], each one enabled as the [disabled] attributes and
    the rendering conditions of the markup say.  A request is in flight from
    the [await] of [handleSendMessage] until the agent call settles. *)

Record Session : Type := {
  view : Home;
  in_flight : list string
}.

(** The values of the check boxes and radio buttons of the side bar. *)
Definition MARKETS : list string := ["NSE"; "BSE"; "CMX"; "US"].
Definition ASSET_TYPES : list string := ["stock"; "mutual_fund"; "etf"].
Definition RISK_LEVELS : list string := ["Conservative"; "Medium"; "Aggressive"].

(** The time carried by an event is what [new Date()] reads in its handler. *)
Inductive Event : Type :=
  | ToggleSidebar
  | ToggleMarket (m : string)
  | ToggleAssetType (a : string)
  | SelectRisk (r : string)
  | ClickReset
  | TypeInput (s : string)
  | PressEnter (t : Z)
  | ClickSend (t : Z)
  | ClickFullAnalysis (t : Z)
  | AgentSettles (o : AgentOutcome) (t : Z)
  | ClickExport
  | ClickRow (idx : nat)
  | ClickPrevious
  | ClickNext
  | ModalOpenChange (b : bool).

Definition is_some {A : Type} (o : option A) : bool :=
  match o with Some _ => true | None => false end.

Definition enabled (e : Event) (s : Session) : bool :=
  let st := view s in
  match e with
  | ToggleSidebar | ClickReset | ModalOpenChange _ => true
  | ToggleMarket m => includes MARKETS m
  | ToggleAssetType a => includes ASSET_TYPES a
  | SelectRisk r => includes RISK_LEVELS r
  | TypeInput _ | PressEnter _ | ClickFullAnalysis _ => negb (loading st)
  | ClickSend _ =>
      negb (loading st || negb (JS.str_truthy (JS.trim (inputMessage st))))
  | AgentSettles _ _ => match in_flight s with [] => false | _ => true end
  | ClickExport =>
      match analysisData st with
      | Some d => truthy (csv_export_data d)
      | None => false
      end
  | ClickRow idx => is_some (paginatedInvestments st !! idx)
  | ClickPrevious => (1 <? totalPages st) && negb (currentPage st =? 1)
  | ClickNext => (1 <? totalPages st) && negb (currentPage st =? totalPages st)
  end.

(** The start of a request: the part of the handler before the [await]. *)
Definition submit (t : Z) (message : option string) (s : Session) : Session :=
  match before_await t message (view s) with
  | None => s
  | Some (text, st) => {| view := st; in_flight := in_flight s ++ [text] |}
  end.

Definition fire (e : Event) (s : Session) : Session :=
  let st := view s in
  let show st' := {| view := st'; in_flight := in_flight s |} in
  match e with
  | ToggleSidebar => show (setSidebarOpen (negb (sidebarOpen st)) st)
  | ToggleMarket m => show (toggleMarket m st)
  | ToggleAssetType a => show (toggleAssetType a st)
  | SelectRisk r => show (setRiskLevel r st)
  | ClickReset => show (handleClearFilters st)
  | TypeInput text => show (setInputMessage text st)
  | PressEnter t | ClickSend t => submit t None s
  | ClickFullAnalysis t => submit t (Some (full_analysis_query st)) s
  | AgentSettles o t =>
      match in_flight s with
      | [] => s
      | _ :: rest => {| view := after_await t o st; in_flight := rest |}
      end
  | ClickExport => s
  | ClickRow idx =>
      match paginatedInvestments st !! idx with
      | Some investment =>
          show (setModalOpen true (setSelectedInvestment (Some investment) st))
      | None => s
      end
  | ClickPrevious => show (previousPage st)
  | ClickNext => show (nextPage st)
  | ModalOpenChange b => show (setModalOpen b st)
  end.

Definition start : Session := {| view := initial; in_flight := [] |}.

(** The sessions a sequence of enabled events leads to. *)
Inductive reachable : Session -> Prop :=
  | reachable_start : reachable start
  | reachable_fire e s : reachable s -> enabled e s = true -> reachable (fire e s).

(** Running a list of events from a session, skipping none: [None] when one
    of them is not enabled. *)
Fixpoint run (events : list Event) (s : Session) : option Session :=
  match events with
  | [] => Some s
  | e :: rest => if enabled e s then run rest (fire e s) else None
  end.

(** The roles of a conversation alternate, starting with [expect]: the role
    expected next, when they do. *)
Fixpoint alternating (expect : Role) (l : list Role) : option Role :=
  match l with
  | [] => Some expect
  | r :: rest =>
      match expect, r with
      | user, user => alternating assistant rest
      | assistant, assistant => alternating user rest
      | _, _ => None
      end
  end.

(** The result attached to the latest entry that has one. *)
Definition latest_data (chat : list ChatMessage) : option AnalysisResult :=
  fold_left
    (fun acc m => match data m with Some d => Some d | None => acc end)
    chat None.

(** The part after the [await] in [src/app/page.tsx]: the reply text has no
    summary alternative and the page is left alone. *)
Definition after_await_page_tsx (t : Z) (o : AgentOutcome) (st : Home) : Home :=
  let network_error := {|
    role := assistant; content := "Network error. Please try again.";
    timestamp := t; data := None; metadata := None |} in
  setLoading false
    match o with
    | Rejected => setChatMessages (append network_error) st
    | Resolved result =>
        if Agent.success result
           && String.eqb (Agent.status (Agent.response result)) "success" then
          match Agent.result (Agent.response result) with
          | None => setChatMessages (append network_error) st
          | Some d =>
              let assistantMessage := {|
                role := assistant;
                content := JS.or_else (conversational_insight d) "Analysis complete.";
                timestamp := t;
                data := Some d;
                metadata := Agent.metadata (Agent.response result) |} in
              setAnalysisData (Some d)
                (setChatMessages (append assistantMessage) st)
          end
        else
          let errorMessage := {|
            role := assistant;
            content :=
              JS.or_else (Agent.message (Agent.response result))
                "Sorry, I encountered an error processing your request.";
            timestamp := t; data := None; metadata := None |} in
          setChatMessages (append errorMessage) st
    end.

(** The two copies of the part after the [await], in the order of
    [handlers]. *)
Definition continuation (h : Env -> option string -> Eff unit)
    (k : Z -> AgentOutcome -> Home -> Home) : Prop :=
  (h = handleSendMessage /\ k = after_await)
  \/ (h = PageTsx.handleSendMessage /\ k = after_await_page_tsx).

(** [st'] is [st] with one assistant entry [reply] appended, [loading]
    cleared, the stored result replaced by the one [reply] carries if it
    carries one, and the input, the filters and the sort state as they were. *)
Definition replied (t : Z) (st st' : Home) (reply : ChatMessage) : Prop :=
  chatMessages st' = chatMessages st ++ [reply]
  /\ role reply = assistant
  /\ timestamp reply = t
  /\ loading st' = false
  /\ inputMessage st' = inputMessage st
  /\ selectedMarkets st' = selectedMarkets st
  /\ selectedAssetTypes st' = selectedAssetTypes st
  /\ riskLevel st' = riskLevel st
  /\ sortConfig st' = sortConfig st
  /\ analysisData st' =
       match data reply with Some d => Some d | None => analysisData st end
  /\ marketStats st' = marketStats st.

(** The badge colours of [src/app/page.tsx] by badge style of
    [src/unnamed/part_000]. *)
Definition colour_of_style (style : string) : string :=
  if String.eqb style "default" then "bg-green-500/20 text-green-400 border border-green-500/50"
  else if String.eqb style "secondary" then "bg-yellow-500/20 text-yellow-400 border border-yellow-500/50"
  else if String.eqb style "destructive" then "bg-red-500/20 text-red-400 border border-red-500/50"
  else "bg-gray-500/20 text-gray-400 border border-gray-500/50".

(** A session with a draft in the input field and nothing selected. *)
Definition draft_nothing_selected : World := {|
  home :=
    setInputMessage "what about gold?"
      (setSelectedAssetTypes (fun _ => []) (setSelectedMarkets (fun _ => []) initial));
  agent_calls := [] |}.

(** What every reachable session satisfies. *)
Definition session_ok (s : Session) : Prop :=
  let st := view s in
  ((in_flight s = [] /\ loading st = false)
   \/ (exists text, in_flight s = [text] /\ loading st = true))
  /\ alternating user (map role (chatMessages st)) =
       Some (if loading st then assistant else user)
  /\ analysisData st = latest_data (chatMessages st)
  /\ 1 <= currentPage st
  /\ NoDup (selectedMarkets st)
  /\ (forall m, m ∈ selectedMarkets st -> m ∈ MARKETS)
  /\ NoDup (selectedAssetTypes st)
  /\ (forall a, a ∈ selectedAssetTypes st -> a ∈ ASSET_TYPES)
  /\ riskLevel st ∈ RISK_LEVELS
  /\ marketStats st = marketStats initial.

(** A session: a request goes out, two filters are changed while it is in
    flight, and the agent answers with a result. *)
Definition sample_events : list Event :=
  [TypeInput "show me buy recommendations"; ClickSend 1000;
   ToggleMarket "CMX"; ToggleAssetType "etf";
   AgentSettles (Resolved success_reply) 2000].

(** The session [sample_events] leads to, and the one before the agent
    answers. *)
Definition sample_session : Session :=
  fold_left (fun s e => fire e s) sample_events start.

Definition waiting_session : Session :=
  fold_left (fun s e => fire e s) (take 4 sample_events) start.

(** A session in which a result of 25 investments has arrived, the user has
    gone to page 3 and has then cleared the check box of the US market. *)
Definition narrowing_events : list Event :=
  [ClickFullAnalysis 1000;
   AgentSettles
     (Resolved {|
        Agent.success := true;
        Agent.response := {|
          Agent.status := "success"; Agent.result := Some twenty_five;
          Agent.metadata := None; Agent.message := None |} |}) 2000;
   ClickNext; ClickNext; ToggleMarket "US"].



(** The code unit [c] occurs in [s]. *)
Fixpoint has_unit (c : ascii) (s : string) : bool :=
  match s with
  | EmptyString => false
  | String x r => Ascii.eqb x c || has_unit c r
  end.

(** * Properties *)

(** ** The handler for a message that passes the guard *)

Lemma guard_passes (message : option string) (st : Home) :
  JS.str_truthy (messageToSend message st) = true ->
  negb (JS.str_truthy (messageToSend message st)) && negb (truthy message) = false.
Proof. intros ->. reflexivity. Qed.

Lemma guard_stops (st : Home) :
  JS.trim (inputMessage st) = "" ->
  negb (JS.str_truthy (messageToSend None st)) && negb (truthy None) = true.
Proof. unfold messageToSend. simpl. intros ->. reflexivity. Qed.


Lemma success_run (env : Env) (message : option string) (w : World)
    (r : Agent.CallResult) (d : AnalysisResult) :
  JS.str_truthy (messageToSend message (home w)) = true ->
  callAIAgent env (messageToSend message (home w)) AGENT_ID = Resolved r ->
  Agent.success r = true ->
  Agent.status (Agent.response r) = "success" ->
  Agent.result (Agent.response r) = Some d ->
  handleSendMessage env message w =
    (Normal tt,
     answered env message w
       (fun st =>
          setCurrentPage (fun _ => 1)
            (setAnalysisData (Some d)
               (setChatMessages (append (assistantMessage env r d)) st)))).
Proof.
  intros Hg Hr Hs Hst Hd. unfold handleSendMessage. rewrite (guard_passes _ _ Hg).
  run_effects. rewrite Hr, Hs, Hst. simpl. unfold assistantMessage.
  rewrite Hd. reflexivity.
Qed.


Lemma failure_run (env : Env) (message : option string) (w : World)
    (r : Agent.CallResult) :
  JS.str_truthy (messageToSend message (home w)) = true ->
  callAIAgent env (messageToSend message (home w)) AGENT_ID = Resolved r ->
  Agent.success r && String.eqb (Agent.status (Agent.response r)) "success" = false ->
  handleSendMessage env message w =
    (Normal tt,
     answered env message w
       (setChatMessages
          (append
             (errorMessage env
                (JS.or_else (Agent.message (Agent.response r))
                   "Sorry, I encountered an error processing your request."))))).
Proof.
  intros Hg Hr Hc. unfold handleSendMessage. rewrite (guard_passes _ _ Hg).
  run_effects. rewrite Hr, Hc. reflexivity.
Qed.



(** The copy in [src/app/page.tsx] in the success branch. *)
Lemma page_tsx_success_run (env : Env) (message : option string) (w : World)
    (r : Agent.CallResult) (d : AnalysisResult) :
  JS.str_truthy (messageToSend message (home w)) = true ->
  callAIAgent env (messageToSend message (home w)) AGENT_ID = Resolved r ->
  Agent.success r = true ->
  Agent.status (Agent.response r) = "success" ->
  Agent.result (Agent.response r) = Some d ->
  PageTsx.handleSendMessage env message w =
    (Normal tt,
     answered env message w
       (fun st =>
          setAnalysisData (Some d)
            (setChatMessages (append (assistantMessage_page_tsx env r d)) st))).
Proof.
  intros Hg Hr Hs Hst Hd. unfold PageTsx.handleSendMessage.
  rewrite (guard_passes _ _ Hg).
  run_effects. rewrite Hr, Hs, Hst. simpl. unfold assistantMessage_page_tsx.
  rewrite Hd. simpl. destruct (ranked_investments d); reflexivity.
Qed.

(** Outside the success branch the two copies of the handler do the same. *)
Lemma page_tsx_agrees (env : Env) (message : option string) (w : World) :
  takes_success_branch (callAIAgent env (messageToSend message (home w)) AGENT_ID) = false ->
  PageTsx.handleSendMessage env message w = handleSendMessage env message w.
Proof.
  intros Hb. unfold PageTsx.handleSendMessage, handleSendMessage.
  destruct (negb (JS.str_truthy (messageToSend message (home w))) && negb (truthy message));
    [reflexivity|].
  run_effects.
  destruct (callAIAgent env (messageToSend message (home w)) AGENT_ID) as [|r];
    [reflexivity|].
  simpl in Hb.
  destruct (Agent.success r && String.eqb (Agent.status (Agent.response r)) "success");
    [|reflexivity].
  simpl in Hb. destruct (Agent.result (Agent.response r)); [discriminate|reflexivity].
Qed.

Lemma page_tsx_guard_agrees (env : Env) (message : option string) (w : World) :
  negb (JS.str_truthy (messageToSend message (home w))) && negb (truthy message) = true ->
  PageTsx.handleSendMessage env message w = (Normal tt, w) /\
  handleSendMessage env message w = (Normal tt, w).
Proof.
  intros Hb. unfold PageTsx.handleSendMessage, handleSendMessage.
  rewrite Hb. split; reflexivity.
Qed.


(** ** Submitting a message *)


(** C9.  Submitting without a message argument while the trimmed text of the
    input field is empty changes nothing: the world after the run is the
    world before it (no entry appended, [loading] not set, analysis and page
    as they were) and no call to the agent is recorded.  This holds for both
    copies of the handler. *)
Theorem submit_blank_is_noop (h : Env -> option string -> Eff unit)
    (env : Env) (w : World) :
  In h handlers ->
  JS.trim (inputMessage (home w)) = "" ->
  h env None w = (Normal tt, w).
Proof.
  intros Hh Ht.
  destruct (page_tsx_guard_agrees env None w (guard_stops _ Ht)) as [H1 H2].
  destruct Hh as [<-|[<-|[]]]; assumption.
Qed.

Lemma submit_blank_is_noop_witness :
  handleSendMessage (env_of Rejected) None blank_input = (Normal tt, blank_input).
Proof.
  apply (submit_blank_is_noop handleSendMessage (env_of Rejected) blank_input).
  - left. reflexivity.
  - reflexivity.
Defined.



(** C7.  When the call comes back but the payload's status is not
    ['success'], the run appends the user entry and exactly one assistant
    entry; its text is the payload's message when there is a non-empty one,
    and the fixed apology when the message is absent (or the empty string);
    the stored analysis result and the page are not touched.  This holds for
    both copies of the handler. *)
Theorem logical_failure_reported (h : Env -> option string -> Eff unit)
    (env : Env) (message : option string) (w : World) (r : Agent.CallResult) :
  In h handlers ->
  JS.str_truthy (messageToSend message (home w)) = true ->
  callAIAgent env (messageToSend message (home w)) AGENT_ID = Resolved r ->
  Agent.success r = true ->
  Agent.status (Agent.response r) <> "success" ->
  let w' := snd (h env message w) in
  let apology := "Sorry, I encountered an error processing your request." in
  exists text,
    chatMessages (home w') =
      chatMessages (home w)
      ++ [userMessage env (messageToSend message (home w)); errorMessage env text]
    /\ (forall m, Agent.message (Agent.response r) = Some m -> m <> "" -> text = m)
    /\ (Agent.message (Agent.response r) = None -> text = apology)
    /\ (Agent.message (Agent.response r) = Some "" -> text = apology)
    /\ analysisData (home w') = analysisData (home w)
    /\ currentPage (home w') = currentPage (home w)
    /\ loading (home w') = false.
Proof.
  intros Hh Hg Hr Hs Hst w' apology.
  assert (Hc : Agent.success r && String.eqb (Agent.status (Agent.response r)) "success" = false).
  { rewrite Hs. simpl. apply String.eqb_neq. assumption. }
  assert (Hrun : h env message w =
    (Normal tt,
     answered env message w
       (setChatMessages
          (append (errorMessage env
                     (JS.or_else (Agent.message (Agent.response r)) apology)))))).
  { destruct Hh as [<-|[<-|[]]].
    - apply failure_run; assumption.
    - rewrite page_tsx_agrees by (rewrite Hr; simpl; rewrite Hc; reflexivity).
      apply failure_run; assumption. }
  exists (JS.or_else (Agent.message (Agent.response r)) apology).
  subst w'. rewrite Hrun. simpl. unfold append. rewrite <- app_assoc. simpl.
  repeat split; try reflexivity.
  - intros m -> Hm. simpl. destruct m; [congruence|reflexivity].
  - intros ->. reflexivity.
  - intros ->. reflexivity.
Qed.

Lemma logical_failure_reported_witness :
  exists text,
    chatMessages (home (snd (handleSendMessage (env_of (Resolved failure_reply))
                               (Some "hello") on_page_3))) =
      [userMessage (env_of (Resolved failure_reply)) "hello";
       errorMessage (env_of (Resolved failure_reply)) text]
    /\ text = "Quota exceeded.".
Proof.
  destruct (logical_failure_reported handleSendMessage
              (env_of (Resolved failure_reply)) (Some "hello") on_page_3 failure_reply)
    as (text & Hchat & Hsome & _).
  - left. reflexivity.
  - reflexivity.
  - reflexivity.
  - reflexivity.
  - discriminate.
  - exists text. split; [exact Hchat|].
    apply Hsome; [reflexivity|discriminate].
Defined.

(** The success branch of [src/unnamed/part_000]: the run appends the user
    entry and one assistant entry whose text is the insight, else the
    summary, else the fixed text; the payload's result becomes the stored
    analysis result; the page is 1 and [loading] is false. *)
Lemma success_reply_part_000 (env : Env) (message : option string) (w : World)
    (r : Agent.CallResult) (d : AnalysisResult) :
  JS.str_truthy (messageToSend message (home w)) = true ->
  callAIAgent env (messageToSend message (home w)) AGENT_ID = Resolved r ->
  Agent.success r = true ->
  Agent.status (Agent.response r) = "success" ->
  Agent.result (Agent.response r) = Some d ->
  let w' := snd (handleSendMessage env message w) in
  exists reply,
    chatMessages (home w') =
      chatMessages (home w)
      ++ [userMessage env (messageToSend message (home w)); reply]
    /\ role reply = assistant
    /\ (forall s, conversational_insight d = Some s -> s <> "" -> content reply = s)
    /\ (truthy (conversational_insight d) = false ->
        forall s, analysis_summary d = Some s -> s <> "" -> content reply = s)
    /\ (truthy (conversational_insight d) = false ->
        truthy (analysis_summary d) = false ->
        content reply = "Analysis complete.")
    /\ data reply = Some d
    /\ analysisData (home w') = Some d
    /\ currentPage (home w') = 1
    /\ loading (home w') = false.
Proof.
  intros Hg Hr Hs Hst Hd w'. exists (assistantMessage env r d).
  subst w'. rewrite (success_run env message w r d Hg Hr Hs Hst Hd).
  simpl. unfold append. rewrite <- app_assoc. simpl.
  repeat split; try reflexivity; try assumption.
  - intros s -> Hne. simpl. destruct s; [congruence|reflexivity].
  - intros Hi s -> Hne. unfold or_undefined.
    destruct (conversational_insight d) as [i|]; simpl in *.
    + rewrite Hi. simpl. destruct s; [congruence|reflexivity].
    + destruct s; [congruence|reflexivity].
  - intros Hi Hsum. unfold or_undefined.
    destruct (conversational_insight d) as [i|]; simpl in *.
    + rewrite Hi. destruct (analysis_summary d) as [s|]; simpl in *;
        [rewrite Hsum|]; reflexivity.
    + destruct (analysis_summary d) as [s|]; simpl in *;
        [rewrite Hsum|]; reflexivity.
Qed.

(** The success branch of [src/app/page.tsx]: the reply text is the insight
    or else the fixed text, whatever the summary is, and the page is the page
    of before. *)
Lemma success_reply_page_tsx (env : Env) (message : option string) (w : World)
    (r : Agent.CallResult) (d : AnalysisResult) :
  JS.str_truthy (messageToSend message (home w)) = true ->
  callAIAgent env (messageToSend message (home w)) AGENT_ID = Resolved r ->
  Agent.success r = true ->
  Agent.status (Agent.response r) = "success" ->
  Agent.result (Agent.response r) = Some d ->
  let w' := snd (PageTsx.handleSendMessage env message w) in
  chatMessages (home w') =
    chatMessages (home w)
    ++ [userMessage env (messageToSend message (home w));
        assistantMessage_page_tsx env r d]
  /\ (truthy (conversational_insight d) = false ->
      content (assistantMessage_page_tsx env r d) = "Analysis complete.")
  /\ analysisData (home w') = Some d
  /\ currentPage (home w') = currentPage (home w)
  /\ loading (home w') = false.
Proof.
  intros Hg Hr Hs Hst Hd w'. subst w'.
  rewrite (page_tsx_success_run env message w r d Hg Hr Hs Hst Hd).
  simpl. unfold append. rewrite <- app_assoc. simpl.
  repeat split; try reflexivity.
  intros Hi. destruct (conversational_insight d) as [i|]; simpl in *;
    [rewrite Hi|]; reflexivity.
Qed.

(** Page 3 is reached with the Next button in both copies of the component
    (5 pages of 10, or 3 pages of 20). *)
Lemma on_page_3_reached :
  currentPage (home on_page_3) = 3
  /\ PageTsx.nextPage (PageTsx.nextPage (setAnalysisData (Some forty_five) initial))
     = home on_page_3.
Proof. vm_compute. split; reflexivity. Qed.

(** C1.  The table shows page 3 of an earlier result when the agent answers
    the message ["show me buy recommendations"] with status ['success'] and a
    result of three investments whose insight is empty and whose summary is
    ["Three candidates ranked."].  The handler of [src/unnamed/part_000]
    replies with the summary and goes to page 1, which shows the three
    investments, as the claim says; the handler of [src/app/page.tsx]
    replies ["Analysis complete."] and stays on page 3, which shows nothing.
    Both store the new result. *)
Theorem page_tsx_success_reply_diverges :
  let env := env_of (Resolved success_reply) in
  let text := "show me buy recommendations" in
  let w1 := snd (handleSendMessage env (Some text) on_page_3) in
  let w2 := snd (PageTsx.handleSendMessage env (Some text) on_page_3) in
  (chatMessages (home w1) =
     [userMessage env text;
      {| role := assistant; content := "Three candidates ranked.";
         timestamp := reply_time env; data := Some sample_result; metadata := None |}]
   /\ analysisData (home w1) = Some sample_result
   /\ currentPage (home w1) = 1
   /\ map symbol (paginatedInvestments (home w1)) = ["AAPL"; "RELIANCE"; "NIFTYBEES"])
  /\
  (chatMessages (home w2) =
     [userMessage env text;
      {| role := assistant; content := "Analysis complete.";
         timestamp := reply_time env; data := Some sample_result; metadata := None |}]
   /\ analysisData (home w2) = Some sample_result
   /\ currentPage (home w2) = 3
   /\ PageTsx.paginatedInvestments (home w2) = []).
Proof. vm_compute. repeat split; reflexivity. Qed.

(** ** CSV export *)

(** C10.  Without a stored analysis result, or with a result whose
    [csv_export_data] is missing or the empty string, the export handler
    does nothing at all; it produces a download exactly when a non-empty CSV
    payload is present, and then the blob consists of that payload and
    nothing else, typed [text/csv]. *)
Theorem export_passes_payload_through (iso url : string) (st : Home) :
  (analysisData st = None -> handleExportCSV iso url st = [])
  /\ (forall d, analysisData st = Some d ->
        csv_export_data d = None \/ csv_export_data d = Some "" ->
        handleExportCSV iso url st = [])
  /\ (handleExportCSV iso url st <> [] <->
        exists d csv,
          analysisData st = Some d /\ csv_export_data d = Some csv /\ csv <> "")
  /\ (forall d csv, analysisData st = Some d ->
        csv_export_data d = Some csv -> csv <> "" ->
        let a := {|
          href := url;
          download := "financial_analysis_" ++ hd "" (JS.split_on "T" iso) ++ ".csv" |} in
        handleExportCSV iso url st =
          [createObjectURL {| blobParts := [csv]; blob_type := "text/csv" |};
           appendChild a; click a; removeChild a; revokeObjectURL url]).
Proof.
  unfold handleExportCSV. repeat split.
  - intros ->. reflexivity.
  - intros d -> [->| ->]; reflexivity.
  - destruct (analysisData st) as [d|]; [|congruence].
    destruct (csv_export_data d) as [csv|] eqn:Hc; simpl; [|congruence].
    destruct csv; simpl; [congruence|].
    intros _. eexists _, _. repeat split; [exact Hc|discriminate].
  - intros (d & csv & -> & -> & Hne). destruct csv; [congruence|]. discriminate.
  - intros d csv -> -> Hne. destruct csv; [congruence|]. reflexivity.
Qed.

Lemma export_passes_payload_through_witness :
  handleExportCSV "2026-01-15T09:30:00.000Z" "blob:1" with_csv =
    [createObjectURL {| blobParts := ["symbol,score"]; blob_type := "text/csv" |};
     appendChild {| href := "blob:1"; download := "financial_analysis_2026-01-15.csv" |};
     click {| href := "blob:1"; download := "financial_analysis_2026-01-15.csv" |};
     removeChild {| href := "blob:1"; download := "financial_analysis_2026-01-15.csv" |};
     revokeObjectURL "blob:1"]
  /\ handleExportCSV "2026-01-15T09:30:00.000Z" "blob:1" initial = [].
Proof.
  split.
  - apply (export_passes_payload_through "2026-01-15T09:30:00.000Z" "blob:1" with_csv)
      with (d := sample_result); [reflexivity|reflexivity|discriminate].
  - apply (export_passes_payload_through "2026-01-15T09:30:00.000Z" "blob:1" initial).
    reflexivity.
Defined.

(** ** Filtering *)

Lemma includes_elem_of (l : list string) (x : string) :
  includes l x = true <-> x ∈ l.
Proof.
  unfold includes. rewrite existsb_exists. split.
  - intros (y & Hy & He). apply String.eqb_eq in He. subst y.
    apply list_elem_of_In. assumption.
  - intros Hx. exists x. split; [apply list_elem_of_In; assumption|apply String.eqb_refl].
Qed.

Lemma length_zero_nil {A : Type} (l : list A) : Nat.eqb (length l) 0 = true <-> l = [].
Proof. destruct l; simpl; split; congruence. Qed.

(** The callback decides the spec's condition. *)
Lemma filter_callback_passes (markets assetTypes : list string) (inv : RankedInvestment) :
  filter_callback markets assetTypes inv = true <-> passes markets assetTypes inv.
Proof.
  unfold filter_callback, marketMatch, assetMatch, passes.
  rewrite andb_true_iff, !orb_true_iff, !length_zero_nil, !includes_elem_of.
  reflexivity.
Qed.

Lemma filter_selects {A : Type} (f : A -> bool) (P : A -> Prop) (l : list A) :
  (forall x, f x = true <-> P x) -> selects P l (List.filter f l).
Proof.
  intros Hf. induction l as [|x l IH]; simpl.
  - constructor.
  - destruct (f x) eqn:Hx.
    + apply selects_keep; [apply Hf; assumption|assumption].
    + apply selects_drop; [|assumption]. rewrite <- Hf. congruence.
Qed.

Lemma filter_all {A : Type} (f : A -> bool) (l : list A) :
  (forall x, f x = true) -> List.filter f l = l.
Proof.
  intros Hf. induction l as [|x l IH]; simpl; [reflexivity|].
  rewrite Hf, IH. reflexivity.
Qed.

(** C6.  The filter keeps exactly the subsequence of the investments that
    satisfy (markets empty or market selected) and (asset types empty or
    asset type selected); every investment kept under markets = [NSE] is an
    NSE investment, and an empty selection on an axis lets every value of
    that axis through. *)
Theorem filter_keeps_exactly_the_matching (markets assetTypes : list string)
    (invs : list RankedInvestment) :
  selects (passes markets assetTypes) invs (filtered markets assetTypes invs)
  /\ (forall inv, inv ∈ filtered ["NSE"] assetTypes invs -> market inv = "NSE")
  /\ selects (fun inv => assetTypes = [] \/ asset_type inv ∈ assetTypes) invs
       (filtered [] assetTypes invs)
  /\ selects (fun inv => markets = [] \/ market inv ∈ markets) invs
       (filtered markets [] invs)
  /\ filtered [] [] invs = invs.
Proof.
  repeat split.
  - apply filter_selects. apply filter_callback_passes.
  - intros inv Hin. apply list_elem_of_In, filter_In in Hin as [_ Hp].
    apply filter_callback_passes in Hp as [[Hm|Hm] _]; [discriminate|].
    apply list_elem_of_singleton in Hm. assumption.
  - apply filter_selects. intros inv.
    rewrite filter_callback_passes. unfold passes. tauto.
  - apply filter_selects. intros inv.
    rewrite filter_callback_passes. unfold passes. tauto.
  - apply filter_all. intros inv. reflexivity.
Qed.

Lemma selects_unique {A : Type} (P : A -> Prop) (l r r' : list A) :
  selects P l r -> selects P l r' -> r = r'.
Proof.
  intros H. revert r'. induction H; intros r' H'; inversion H'; subst;
    try reflexivity; try contradiction.
  - f_equal. apply IHselects. assumption.
  - apply IHselects. assumption.
Qed.

Lemma filter_keeps_exactly_the_matching_witness :
  filtered ["NSE"] [] sample_investments =
    [investment "RELIANCE" "NSE" "stock" "9" "10%";
     investment "NIFTYBEES" "NSE" "etf" "7.5" "1.2%"]
  /\ market (investment "NIFTYBEES" "NSE" "etf" "7.5" "1.2%") = "NSE".
Proof.
  split; [reflexivity|].
  apply (filter_keeps_exactly_the_matching ["NSE"] [] sample_investments).
  unfold sample_investments. vm_compute. apply list_elem_of_In. simpl. tauto.
Defined.

(** ** Pagination *)

Lemma ceil_quotient_div (n p : Z) : 0 < p -> ceil_quotient n p = (n + p - 1) / p.
Proof.
  intros Hp. unfold ceil_quotient, Qceiling.
  destruct p as [|p'|p']; try lia.
  unfold Qfloor, Qdiv, Qinv, Qmult, Qopp, inject_Z. simpl.
  rewrite Z.mul_1_r. change (Z.pos (1 * p')) with (Z.pos p').
  Z.div_mod_to_equations. nia.
Qed.

Lemma slice_from_start {A : Type} (l : list A) (s e : Z) :
  0 <= s -> s <= e ->
  JS.slice l s e = take (Z.to_nat (e - s)) (drop (Z.to_nat s) l).
Proof.
  intros Hs He. unfold JS.slice.
  destruct (Z.ltb_spec s 0); [lia|]. destruct (Z.ltb_spec e 0); [lia|].
  destruct (Z_le_gt_dec (Z.of_nat (length l)) s) as [Hout|Hin].
  - rewrite (drop_ge l (Z.to_nat s)) by lia.
    rewrite drop_ge by lia. rewrite !take_nil. reflexivity.
  - rewrite (Z.min_l s) by lia.
    destruct (Z_le_gt_dec e (Z.of_nat (length l))) as [He'|He'].
    + rewrite Z.min_l by lia. reflexivity.
    + rewrite Z.min_r by lia.
      rewrite !take_ge; [reflexivity|rewrite length_drop; lia|rewrite length_drop; lia].
Qed.

(** C2, as the code has it.  For a list of [n] items and a positive page
    size [p], the number of pages is the ceiling of [n/p]: 0 for the empty
    list and at least 1 otherwise.  No page number is clamped (and none makes
    the slice fail): a page from 1 on gets the [p] items that start at
    position [(page-1)*p], which are between 1 and [p] items for a page up to
    the number of pages and none beyond it; page 0 gets nothing; a negative
    page gets the items that the two negative bounds of the slice select
    counting from the end of the list. *)
Theorem pages_are_not_clamped {A : Type} (items : list A) (p page : Z) :
  0 < p ->
  let n := Z.of_nat (length items) in
  (p * (total_pages items p - 1) < n <= p * total_pages items p)
  /\ (total_pages items p = 0 <-> items = [])
  /\ (1 <= page ->
      page_items items p page =
        take (Z.to_nat p) (drop (Z.to_nat ((page - 1) * p)) items))
  /\ (1 <= page <= total_pages items p ->
      1 <= Z.of_nat (length (page_items items p page)) <= p)
  /\ (total_pages items p < page -> page_items items p page = [])
  /\ (page = 0 -> page_items items p page = [])
  /\ (page < 0 ->
      page_items items p page =
        take (Z.to_nat (Z.max (n + page * p) 0 - Z.max (n + (page - 1) * p) 0))
          (drop (Z.to_nat (Z.max (n + (page - 1) * p) 0)) items)).
Proof.
  intros Hp n.
  assert (Ht : total_pages items p = (n + p - 1) / p)
    by (apply ceil_quotient_div; assumption).
  assert (Hceil : p * (total_pages items p - 1) < n <= p * total_pages items p).
  { rewrite Ht. Z.div_mod_to_equations. nia. }
  assert (Hpage : 1 <= page ->
    page_items items p page =
      take (Z.to_nat p) (drop (Z.to_nat ((page - 1) * p)) items)).
  { intros H1. unfold page_items. rewrite slice_from_start by nia.
    replace (page * p - (page - 1) * p) with p by lia. reflexivity. }
  repeat split; try apply Hceil; try assumption.
  - intros H0. destruct items; [reflexivity|]. subst n. simpl length in *. nia.
  - intros ->. subst n. simpl in *. nia.
  - rewrite Hpage by lia. rewrite length_take, length_drop.
    destruct H as [H1 H2]. subst n. nia.
  - rewrite Hpage by lia. rewrite length_take, length_drop. lia.
  - intros Hbeyond. rewrite Hpage by nia.
    rewrite drop_ge; [apply take_nil|]. subst n. nia.
  - intros ->. unfold page_items, JS.slice.
    destruct (Z.ltb_spec ((0 - 1) * p) 0); [|lia].
    destruct (Z.ltb_spec (0 * p) 0); [lia|].
    match goal with |- take ?k _ = _ => replace k with O by lia end.
    reflexivity.
  - intros Hneg. unfold page_items, JS.slice.
    destruct (Z.ltb_spec ((page - 1) * p) 0); [|nia].
    destruct (Z.ltb_spec (page * p) 0); [|nia].
    reflexivity.
Qed.

Lemma pages_are_not_clamped_witness :
  page_items sample_investments 2 2 =
    take 2 (drop 2 sample_investments)
  /\ page_items sample_investments 2 5 = [].
Proof.
  split.
  - destruct (pages_are_not_clamped sample_investments 2 2) as (_ & _ & H & _);
      [lia|]. apply H. lia.
  - destruct (pages_are_not_clamped sample_investments 2 5) as (_ & _ & _ & _ & H & _);
      [lia|]. apply H. vm_compute. reflexivity.
Defined.

(** A page beyond the last one is reached in the component: with 25
    investments shown 10 to a page, go to page 3 and then deselect the US
    market.  The five investments left make one page, the page stays 3, and
    the table shows nothing. *)
Lemma page_beyond_last_is_reachable :
  let st := toggleMarket "US" (nextPage (nextPage (setAnalysisData (Some twenty_five) initial))) in
  length (filteredInvestments st) = 5%nat
  /\ totalPages st = 1
  /\ currentPage st = 3
  /\ paginatedInvestments st = [].
Proof. vm_compute. repeat split; reflexivity. Qed.

(** The spec's pagination on the same inputs: it would show the last page
    for a page beyond the end and count one page for the empty list. *)
Lemma pages_clamped_counterexample :
  (page_items sample_investments 2 5, total_pages sample_investments 2)
    <> paginate_spec sample_investments 2 5
  /\ (page_items (@nil RankedInvestment) 10 1, total_pages (@nil RankedInvestment) 10)
    <> paginate_spec (@nil RankedInvestment) 10 1.
Proof. split; vm_compute; discriminate. Qed.

(** ** Score codecs *)







(** The label ["N/A"] is in the table with 0, which [||] replaces by 50. *)
Lemma pillar_not_available : pillarToPercentage "N/A" = Some 50.
Proof. reflexivity. Qed.

(** An inherited member is returned as it is, not as a number. *)
Lemma pillar_inherited_member : pillarToPercentage "constructor" = None.
Proof. reflexivity. Qed.

(** ** The derivation leaves the stored array alone *)

Lemma fresh_not_allocated (h : Heap.store) (r : Heap.loc) (l : list RankedInvestment) :
  h !! r = Some l -> r <> fresh (dom h).
Proof.
  intros Hr ->. apply (is_fresh (dom h)). apply elem_of_dom. eauto.
Qed.

Ltac run_store :=
  unfold Heap.derive, Heap.getFilteredAndSortedInvestments, Heap.array_filter,
    Heap.array_sort, Heap.array_slice, Heap.array_length, Heap.read, Heap.write,
    Heap.new_array, mbind, mret, Heap.M_bind, Heap.M_ret.

(** One derivation: two arrays are allocated, one for the sorted table and
    one for the page; nothing else is written. *)
Lemma derive_run (h : Heap.store) (ranked : option Heap.loc)
    (markets assetTypes : list string) (cfg : SortConfig) (pageSize page : Z) :
  (forall r, ranked = Some r -> is_Some (h !! r)) ->
  let table := sorted_table (contents h ranked) markets assetTypes cfg in
  let r1 := fresh (dom h) in
  let h1 := <[r1 := table]> h in
  let r2 := fresh (dom h1) in
  Heap.derive ranked markets assetTypes cfg pageSize page h =
    Some ((r2, total_pages table pageSize),
          <[r2 := page_items table pageSize page]> h1).
Proof.
  intros Hr. destruct ranked as [r|]; simpl.
  - destruct (Hr r eq_refl) as [invs Hinvs]. run_store.
    rewrite Hinvs. simpl. rewrite lookup_insert_eq. simpl.
    rewrite insert_insert_eq. rewrite lookup_insert_eq. simpl.
    rewrite lookup_insert_eq. reflexivity.
  - run_store. simpl. rewrite lookup_insert_eq. simpl.
    rewrite lookup_insert_eq. reflexivity.
Qed.

Lemma derive_preserves (h : Heap.store) (table shown : list RankedInvestment)
    (r : Heap.loc) (invs : list RankedInvestment) :
  h !! r = Some invs ->
  let h1 := <[fresh (dom h) := table]> h in
  (<[fresh (dom h1) := shown]> h1) !! r = Some invs.
Proof.
  intros Hr h1.
  assert (H1 : h1 !! r = Some invs).
  { subst h1. rewrite lookup_insert_ne; [assumption|].
    intros E. symmetry in E. revert E. eapply fresh_not_allocated. eassumption. }
  rewrite lookup_insert_ne; [assumption|].
  intros E. symmetry in E. revert E. eapply fresh_not_allocated. eassumption.
Qed.

(** The table of the component state is the table of the derivation on the
    contents of the stored array. *)
Lemma table_of_state (st : Home) :
  getFilteredAndSortedInvestments st =
    sorted_table
      (match analysisData st with Some d => ranked_investments d | None => None end)
      (selectedMarkets st) (selectedAssetTypes st) (sortConfig st).
Proof.
  unfold getFilteredAndSortedInvestments, filtered_and_sorted, sorted_table.
  destruct (analysisData st) as [d|]; [|reflexivity].
  destruct (ranked_investments d); reflexivity.
Qed.

(** C8.  For any stored array and any fixed filter, sort and page state, the
    derivation filter, sort, paginate can be run, and run again on the store
    the first run leaves: both runs return the same number of pages and
    pages with the same contents (the page of the sorted table of the stored
    array), the page returned first is still intact after the second run,
    and every array that existed before, the stored array of investments
    among them, has the contents it had. *)
Theorem derivation_is_repeatable (h : Heap.store) (ranked : option Heap.loc)
    (markets assetTypes : list string) (cfg : SortConfig) (pageSize page : Z) :
  (forall r, ranked = Some r -> is_Some (h !! r)) ->
  exists page1 page2 total h1 h2 shown,
    Heap.derive ranked markets assetTypes cfg pageSize page h = Some ((page1, total), h1)
    /\ Heap.derive ranked markets assetTypes cfg pageSize page h1 = Some ((page2, total), h2)
    /\ h1 !! page1 = Some shown
    /\ h2 !! page2 = Some shown
    /\ h2 !! page1 = Some shown
    /\ shown =
         page_items (sorted_table (contents h ranked) markets assetTypes cfg) pageSize page
    /\ total = total_pages (sorted_table (contents h ranked) markets assetTypes cfg) pageSize
    /\ (forall r invs, h !! r = Some invs ->
          h1 !! r = Some invs /\ h2 !! r = Some invs).
Proof.
  intros Hr.
  pose proof (derive_run h ranked markets assetTypes cfg pageSize page Hr) as Hrun1.
  cbv zeta in Hrun1.
  set (table := sorted_table (contents h ranked) markets assetTypes cfg) in *.
  set (ha := <[fresh (dom h) := table]> h) in *.
  set (h1 := <[fresh (dom ha) := page_items table pageSize page]> ha) in *.
  assert (Hkeep : forall r invs, h !! r = Some invs -> h1 !! r = Some invs).
  { intros r invs Hl. apply (derive_preserves h table _ r invs Hl). }
  assert (Hc : contents h1 ranked = contents h ranked).
  { destruct ranked as [r|]; [|reflexivity]. simpl.
    destruct (Hr r eq_refl) as [invs Hl]. rewrite Hl. apply Hkeep. assumption. }
  assert (Hr1 : forall r, ranked = Some r -> is_Some (h1 !! r)).
  { intros r E. destruct (Hr r E) as [invs Hl]. exists invs. apply Hkeep. assumption. }
  pose proof (derive_run h1 ranked markets assetTypes cfg pageSize page Hr1) as Hrun2.
  cbv zeta in Hrun2. rewrite Hc in Hrun2. fold table in Hrun2.
  set (hb := <[fresh (dom h1) := table]> h1) in *.
  set (h2 := <[fresh (dom hb) := page_items table pageSize page]> hb) in *.
  assert (Hshown : h1 !! fresh (dom ha) = Some (page_items table pageSize page))
    by (subst h1; apply lookup_insert_eq).
  exists (fresh (dom ha)), (fresh (dom hb)), (total_pages table pageSize), h1, h2,
    (page_items table pageSize page).
  repeat split.
  - exact Hrun1.
  - exact Hrun2.
  - exact Hshown.
  - subst h2. apply lookup_insert_eq.
  - apply (derive_preserves h1 table _ _ _ Hshown).
  - apply Hkeep. assumption.
  - apply (derive_preserves h1 table _ r invs). apply Hkeep. assumption.
Qed.

Lemma derivation_is_repeatable_witness :
  exists page1 page2 total h1 h2 shown,
    Heap.derive (Some 0%nat) ["NSE"] [] (sortConfig initial) 2 1 sample_store =
      Some ((page1, total), h1)
    /\ Heap.derive (Some 0%nat) ["NSE"] [] (sortConfig initial) 2 1 h1 =
      Some ((page2, total), h2)
    /\ h1 !! page1 = Some shown
    /\ h2 !! page2 = Some shown
    /\ h2 !! 0%nat = Some sample_investments.
Proof.
  destruct (derivation_is_repeatable sample_store (Some 0%nat) ["NSE"] []
              (sortConfig initial) 2 1)
    as (page1 & page2 & total & h1 & h2 & shown & H1 & H2 & H3 & H4 & _ & _ & _ & H5).
  - intros r [= <-]. exists sample_investments. reflexivity.
  - exists page1, page2, total, h1, h2, shown.
    repeat split; try assumption.
    apply (H5 0%nat sample_investments). reflexivity.
Defined.

(** ** The sort, for any comparator *)

Section SortFacts.
Context {A : Type} (comparefn : A -> A -> Z).

Lemma sort_insert_perm (x : A) (l : list A) :
  JS.sort_insert comparefn x l ≡ₚ x :: l.
Proof.
  induction l as [|y ys IH]; simpl; [reflexivity|].
  destruct (0 <? comparefn x y); [|reflexivity].
  rewrite IH. apply perm_swap.
Qed.

Lemma sort_perm (l : list A) : JS.sort comparefn l ≡ₚ l.
Proof.
  induction l as [|x xs IH]; simpl; [reflexivity|].
  rewrite sort_insert_perm, IH. reflexivity.
Qed.





Lemma precedes_cons (a b x : A) (l : list A) :
  precedes a b l -> precedes a b (x :: l).
Proof. intros (l1 & l2 & l3 & ->). exists (x :: l1), l2, l3. reflexivity. Qed.




(** Sortedness, for a comparator that is consistent on a class [D] of
    elements. *)
Section Consistent.
Context (D : A -> Prop).
Hypothesis reverse : forall x y, D x -> D y -> 0 < comparefn x y -> comparefn y x <= 0.
Hypothesis transitive : forall x y z, D x -> D y -> D z ->
  comparefn x y <= 0 -> comparefn y z <= 0 -> comparefn x z <= 0.


End Consistent.
End SortFacts.

(** ** Order on strings and numbers *)










(** ** The relational operator within one kind *)




(** ** The sort callback *)

(** No field name of the wire interfaces is a member inherited from
    [Object.prototype], and the keys of the table headers are made of field
    names: for them the own-property lookup of [JS.get] is the whole story. *)
Lemma wire_names_are_own :
  forallb (fun f => negb (includes object_prototype_names f)) wire_fields = true
  /\ wire_path "symbol" = true
  /\ wire_path "name" = true
  /\ wire_path "four_pillar_score.overall_score" = true.
Proof. repeat split; reflexivity. Qed.

(** The keys of the table headers resolve to the fields they name. *)
Lemma resolve_table_keys (inv : RankedInvestment) :
  resolve (JS.split_on "." "symbol") (RankedInvestment_value inv) = JS.VStr (symbol inv)
  /\ resolve (JS.split_on "." "name") (RankedInvestment_value inv) = JS.VStr (name inv)
  /\ resolve (JS.split_on "." "four_pillar_score.overall_score") (RankedInvestment_value inv)
     = JS.VStr (overall_score (four_pillar_score inv))
  /\ resolve (JS.split_on "." "key_metrics.dividend_yield") (RankedInvestment_value inv)
     = JS.VStr (dividend_yield (key_metrics inv)).
Proof. repeat split; reflexivity. Qed.

Lemma comparefn_desc_opp (k : string) (a b : RankedInvestment) :
  comparefn {| key := k; direction := desc |} a b =
  - comparefn {| key := k; direction := asc |} a b.
Proof.
  unfold comparefn. simpl.
  destruct (JS.lt (sort_value k a) (sort_value k b)); [reflexivity|].
  destruct (JS.lt (sort_value k b) (sort_value k a)); reflexivity.
Qed.











(** Scores that read as zero stay strings: ["0"] and ["0.0"] are ordered as
    text, although they are the same number. *)
Lemma zero_scores_compare_as_text :
  map symbol
    (JS.sort (comparefn (by_score asc))
       [investment "A" "NSE" "stock" "0.0" ""; investment "B" "NSE" "stock" "0" ""])
  = ["B"; "A"].
Proof. reflexivity. Qed.

(** * The rest of the component *)

(** ** The handler around its [await] *)

(** A run of [handleSendMessage] is its part before the [await], then the
    call, then its part after the [await]; nothing is thrown out of it. *)
Lemma handler_around_await (env : Env) (message : option string) (w : World) :
  handleSendMessage env message w =
    match before_await (submit_time env) message (home w) with
    | None => (Normal tt, w)
    | Some (text, st) =>
        (Normal tt,
         {| home := after_await (reply_time env) (callAIAgent env text AGENT_ID) st;
            agent_calls := agent_calls w ++ [(text, AGENT_ID)] |})
    end.
Proof.
  unfold handleSendMessage, before_await, after_await.
  destruct (negb (JS.str_truthy (messageToSend message (home w))) && negb (truthy message));
    [reflexivity|].
  run_effects.
  destruct (callAIAgent env (messageToSend message (home w)) AGENT_ID) as [|r];
    [reflexivity|].
  destruct (Agent.success r && String.eqb (Agent.status (Agent.response r)) "success");
    [|reflexivity].
  simpl. destruct (Agent.result (Agent.response r)); reflexivity.
Qed.

(** The same for the copy in [src/app/page.tsx]. *)
Lemma page_tsx_around_await (env : Env) (message : option string) (w : World) :
  PageTsx.handleSendMessage env message w =
    match before_await (submit_time env) message (home w) with
    | None => (Normal tt, w)
    | Some (text, st) =>
        (Normal tt,
         {| home := after_await_page_tsx (reply_time env) (callAIAgent env text AGENT_ID) st;
            agent_calls := agent_calls w ++ [(text, AGENT_ID)] |})
    end.
Proof.
  unfold PageTsx.handleSendMessage, before_await, after_await_page_tsx.
  destruct (negb (JS.str_truthy (messageToSend message (home w))) && negb (truthy message));
    [reflexivity|].
  run_effects.
  destruct (callAIAgent env (messageToSend message (home w)) AGENT_ID) as [|r];
    [reflexivity|].
  destruct (Agent.success r && String.eqb (Agent.status (Agent.response r)) "success");
    [|reflexivity].
  simpl. destruct (Agent.result (Agent.response r)) as [d|]; [|reflexivity].
  simpl. destruct (ranked_investments d); reflexivity.
Qed.

(** The run of a message that passes the guard, for either copy. *)
Lemma passed_run_equation (h : Env -> option string -> Eff unit)
    (k : Z -> AgentOutcome -> Home -> Home)
    (env : Env) (message : option string) (w : World) :
  continuation h k ->
  JS.str_truthy (messageToSend message (home w)) = true ->
  h env message w =
    (Normal tt,
     {| home :=
          k (reply_time env)
            (callAIAgent env (messageToSend message (home w)) AGENT_ID)
            (setInputMessage ""
               (setChatMessages
                  (append (userMessage env (messageToSend message (home w))))
                  (setLoading true (home w))));
        agent_calls := agent_calls w ++ [(messageToSend message (home w), AGENT_ID)] |}).
Proof.
  intros [[-> ->]|[-> ->]] Hg.
  - rewrite handler_around_await. unfold before_await.
    rewrite (guard_passes _ _ Hg). reflexivity.
  - rewrite page_tsx_around_await. unfold before_await.
    rewrite (guard_passes _ _ Hg). reflexivity.
Qed.

Lemma handlers_continuation (h : Env -> option string -> Eff unit) :
  In h handlers -> exists k, continuation h k.
Proof.
  intros [<-|[<-|[]]].
  - exists after_await. left. split; reflexivity.
  - exists after_await_page_tsx. right. split; reflexivity.
Qed.

(** What the part after the [await] does to a state, whatever the outcome of
    the call. *)
Lemma after_await_replied (t : Z) (o : AgentOutcome) (st : Home) :
  exists reply,
    replied t st (after_await t o st) reply
    /\ currentPage (after_await t o st) =
         match data reply with Some _ => 1 | None => currentPage st end.
Proof.
  unfold after_await, replied. destruct o as [|r].
  - eexists. simpl. repeat split.
  - destruct (Agent.success r && String.eqb (Agent.status (Agent.response r)) "success").
    + destruct (Agent.result (Agent.response r)) as [d|]; eexists; simpl; repeat split.
    + eexists. simpl. repeat split.
Qed.

Lemma after_await_page_tsx_replied (t : Z) (o : AgentOutcome) (st : Home) :
  exists reply,
    replied t st (after_await_page_tsx t o st) reply
    /\ currentPage (after_await_page_tsx t o st) = currentPage st.
Proof.
  unfold after_await_page_tsx, replied. destruct o as [|r].
  - eexists. simpl. repeat split.
  - destruct (Agent.success r && String.eqb (Agent.status (Agent.response r)) "success").
    + destruct (Agent.result (Agent.response r)) as [d|]; eexists; simpl; repeat split.
    + eexists. simpl. repeat split.
Qed.

Lemma continuation_replied (h : Env -> option string -> Eff unit)
    (k : Z -> AgentOutcome -> Home -> Home) (t : Z) (o : AgentOutcome) (st : Home) :
  continuation h k ->
  exists reply,
    replied t st (k t o st) reply
    /\ (h = handleSendMessage ->
        currentPage (k t o st) = match data reply with Some _ => 1 | None => currentPage st end)
    /\ (h = PageTsx.handleSendMessage -> currentPage (k t o st) = currentPage st).
Proof.
  assert (Hne : handleSendMessage <> PageTsx.handleSendMessage).
  { intros E.
    assert (Hd := f_equal (fun f => currentPage (home (snd (f (env_of (Resolved success_reply))
                                                       (Some "x") on_page_3)))) E).
    vm_compute in Hd. discriminate. }
  intros [[-> ->]|[-> ->]].
  - destruct (after_await_replied t o st) as (reply & Hr & Hp).
    exists reply. split; [assumption|]. split.
    + intros _. assumption.
    + intros E. contradiction.
  - destruct (after_await_page_tsx_replied t o st) as (reply & Hr & Hp).
    exists reply. split; [assumption|]. split.
    + intros E. symmetry in E. contradiction.
    + intros _. assumption.
Qed.

(** X1.  Whatever the agent call does, throws included, a message that
    passes the guard makes exactly one call and one exchange, in both copies
    of the handler: the call is recorded, the user entry and one assistant
    entry are appended, the input field is cleared, [loading] ends false,
    and the filters, the risk level and the sort state are untouched.  The
    stored result changes only together with the conversation: it is the
    result the assistant entry carries if it carries one, and the result of
    before otherwise.  The copy in [src/unnamed/part_000] shows page 1 in the
    first case and the page of before in the second; the copy in
    [src/app/page.tsx] never changes the page. *)
Theorem every_run_is_one_exchange (h : Env -> option string -> Eff unit)
    (env : Env) (message : option string) (w : World) :
  In h handlers ->
  JS.str_truthy (messageToSend message (home w)) = true ->
  let text := messageToSend message (home w) in
  let w' := snd (h env message w) in
  fst (h env message w) = Normal tt
  /\ agent_calls w' = agent_calls w ++ [(text, AGENT_ID)]
  /\ inputMessage (home w') = ""
  /\ loading (home w') = false
  /\ selectedMarkets (home w') = selectedMarkets (home w)
  /\ selectedAssetTypes (home w') = selectedAssetTypes (home w)
  /\ riskLevel (home w') = riskLevel (home w)
  /\ sortConfig (home w') = sortConfig (home w)
  /\ exists reply,
       chatMessages (home w') =
         chatMessages (home w) ++ [userMessage env text; reply]
       /\ role reply = assistant
       /\ analysisData (home w') =
            match data reply with Some d => Some d | None => analysisData (home w) end
       /\ (h = handleSendMessage ->
           currentPage (home w') =
             match data reply with Some _ => 1 | None => currentPage (home w) end)
       /\ (h = PageTsx.handleSendMessage ->
           currentPage (home w') = currentPage (home w)).
Proof.
  intros Hh Hg text w'.
  destruct (handlers_continuation h Hh) as [k Hk].
  pose proof (passed_run_equation h k env message w Hk Hg) as Hrun.
  fold text in Hrun.
  match type of Hrun with context [k ?t ?o ?st] =>
    destruct (continuation_replied h k t o st Hk)
      as (reply & (Hc & Hr & _ & Hl & Hi & Hm & Ha & Hrk & Hs & Hd & _) & Hp1 & Hp2)
  end.
  subst w'. rewrite Hrun. cbn [fst snd home agent_calls].
  rewrite Hl, Hi, Hm, Ha, Hrk, Hs. repeat split.
  exists reply. rewrite Hc, Hd. simpl. unfold append.
  rewrite <- app_assoc. simpl. repeat split; assumption.
Qed.

Lemma every_run_is_one_exchange_witness :
  agent_calls (snd (handleSendMessage (env_of Rejected) (Some "hello") on_page_3)) =
    [("hello", AGENT_ID)].
Proof.
  apply (every_run_is_one_exchange handleSendMessage (env_of Rejected)
           (Some "hello") on_page_3).
  - left. reflexivity.
  - reflexivity.
Defined.

(** ** Full analysis *)

Lemma query_passes_guard (st : Home) :
  JS.str_truthy (full_analysis_query st) = true
  /\ JS.str_truthy (full_analysis_query_page_tsx st) = true
  /\ messageToSend (Some (full_analysis_query st)) st = full_analysis_query st
  /\ messageToSend (Some (full_analysis_query_page_tsx st)) st =
       full_analysis_query_page_tsx st.
Proof. repeat split; reflexivity. Qed.

(** X2.  The button Run Full Analysis always sends: whatever the filters,
    the risk level and the input field hold, its handler records exactly one
    call, with the generated query, appends the user entry with that query
    and one assistant entry, ends with [loading] false, and leaves the input
    field empty, so a draft typed there is dropped without being sent.  This
    holds for both copies, each with its own query text. *)
Theorem full_analysis_always_sends (env : Env) (w : World) :
  let q := full_analysis_query (home w) in
  let q' := full_analysis_query_page_tsx (home w) in
  let w1 := snd (handleFullAnalysis env w) in
  let w2 := snd (handleFullAnalysis_page_tsx env w) in
  (agent_calls w1 = agent_calls w ++ [(q, AGENT_ID)]
   /\ (exists reply,
         chatMessages (home w1) = chatMessages (home w) ++ [userMessage env q; reply]
         /\ role reply = assistant)
   /\ inputMessage (home w1) = ""
   /\ loading (home w1) = false)
  /\
  (agent_calls w2 = agent_calls w ++ [(q', AGENT_ID)]
   /\ (exists reply,
         chatMessages (home w2) = chatMessages (home w) ++ [userMessage env q'; reply]
         /\ role reply = assistant)
   /\ inputMessage (home w2) = ""
   /\ loading (home w2) = false).
Proof.
  intros q q' w1 w2.
  destruct (query_passes_guard (home w)) as (Hq & Hq' & Hm & Hm').
  split.
  - assert (Hk : continuation handleSendMessage after_await) by (left; split; reflexivity).
    pose proof (passed_run_equation _ _ env (Some q) w Hk) as Hrun.
    unfold q in Hrun at 1. rewrite Hm in Hrun. specialize (Hrun Hq). fold q in Hrun.
    match type of Hrun with context [after_await ?t ?o ?st] =>
      destruct (after_await_replied t o st)
        as (reply & (Hc & Hr & _ & Hl & Hi & _) & _)
    end.
    subst w1. unfold handleFullAnalysis. fold q. rewrite Hrun.
    cbn [fst snd home agent_calls]. rewrite Hl, Hi, Hc. simpl. unfold append.
    rewrite <- app_assoc. simpl. repeat split. exists reply. split; [reflexivity|assumption].
  - assert (Hk : continuation PageTsx.handleSendMessage after_await_page_tsx)
      by (right; split; reflexivity).
    pose proof (passed_run_equation _ _ env (Some q') w Hk) as Hrun.
    unfold q' in Hrun at 1. rewrite Hm' in Hrun. specialize (Hrun Hq'). fold q' in Hrun.
    match type of Hrun with context [after_await_page_tsx ?t ?o ?st] =>
      destruct (after_await_page_tsx_replied t o st)
        as (reply & (Hc & Hr & _ & Hl & Hi & _) & _)
    end.
    subst w2. unfold handleFullAnalysis_page_tsx. fold q'. rewrite Hrun.
    cbn [fst snd home agent_calls]. rewrite Hl, Hi, Hc. simpl. unfold append.
    rewrite <- app_assoc. simpl. repeat split. exists reply. split; [reflexivity|assumption].
Qed.

(** The queries of the first render, and the query sent with nothing
    selected while a draft sits in the input field. *)
Lemma full_analysis_examples :
  full_analysis_query initial =
    "Give me medium risk investment recommendations for stock, mutual fund, etf in NSE, BSE, CMX, US markets for long-term growth"
  /\ full_analysis_query_page_tsx initial =
    "Give me medium risk investment recommendations for stock, mutual_fund, etf in NSE, BSE, CMX, US markets for long-term growth"
  /\ agent_calls (snd (handleFullAnalysis (env_of Rejected) draft_nothing_selected)) =
    [("Give me medium risk investment recommendations for  in  markets for long-term growth",
      AGENT_ID)].
Proof. repeat split; reflexivity. Qed.

(** ** Recommendation badges *)

Lemma lower_unit_idempotent (c : ascii) : lower_unit (lower_unit c) = lower_unit c.
Proof. destruct c as [[] [] [] [] [] [] [] []]; reflexivity. Qed.

Lemma toLowerCase_idempotent (s : string) : toLowerCase (toLowerCase s) = toLowerCase s.
Proof.
  induction s as [|c s IH]; simpl; [reflexivity|].
  rewrite lower_unit_idempotent, IH. reflexivity.
Qed.

(** X3.  The recommendation badge depends on the recommendation only up to
    letter case: the style is [default] exactly for the spellings of "buy",
    [secondary] for those of "hold", [destructive] for those of "sell" and
    [outline] for everything else; and the colour classes of
    [src/app/page.tsx] are the same four categories. *)
Theorem recommendation_badge_ignores_case (rec : string) :
  getRecommendationStyle (toLowerCase rec) = getRecommendationStyle rec
  /\ (getRecommendationStyle rec = "default" <-> toLowerCase rec = "buy")
  /\ (getRecommendationStyle rec = "secondary" <-> toLowerCase rec = "hold")
  /\ (getRecommendationStyle rec = "destructive" <-> toLowerCase rec = "sell")
  /\ (getRecommendationStyle rec = "outline" <->
      toLowerCase rec <> "buy" /\ toLowerCase rec <> "hold" /\ toLowerCase rec <> "sell")
  /\ getRecommendationColor rec = colour_of_style (getRecommendationStyle rec).
Proof.
  unfold getRecommendationStyle, getRecommendationColor.
  rewrite toLowerCase_idempotent.
  destruct (String.eqb_spec (toLowerCase rec) "buy") as [->|Hb].
  { repeat split; try reflexivity; try discriminate; intros H; try discriminate H.
    destruct H as [H _]. congruence. }
  destruct (String.eqb_spec (toLowerCase rec) "hold") as [->|Hh].
  { repeat split; try reflexivity; try discriminate; intros H; try discriminate H.
    destruct H as (_ & H & _). congruence. }
  destruct (String.eqb_spec (toLowerCase rec) "sell") as [->|Hs].
  { repeat split; try reflexivity; try discriminate; intros H; try discriminate H.
    destruct H as (_ & _ & H). congruence. }
  repeat split; try reflexivity; try assumption; intros H; try discriminate H;
    contradiction.
Qed.

Lemma recommendation_badge_examples :
  getRecommendationStyle "BUY" = "default"
  /\ getRecommendationStyle "Hold" = "secondary"
  /\ getRecommendationStyle "sell" = "destructive"
  /\ getRecommendationStyle "Strong Buy" = "outline"
  /\ getRecommendationStyle " buy" = "outline".
Proof. repeat split; reflexivity. Qed.

(** ** Check boxes *)

Lemma includes_app_one (l : list string) (x y : string) :
  includes (l ++ [x]) y = includes l y || String.eqb y x.
Proof. unfold includes. rewrite existsb_app. simpl. rewrite orb_false_r. reflexivity. Qed.

Lemma includes_removed (l : list string) (x y : string) :
  includes (List.filter (fun m => negb (String.eqb m x)) l) y =
  includes l y && negb (String.eqb y x).
Proof.
  unfold includes. induction l as [|z l IH]; simpl; [reflexivity|].
  destruct (String.eqb z x) eqn:Hzx; simpl.
  - apply String.eqb_eq in Hzx. subst z. rewrite IH.
    destruct (String.eqb y x); simpl.
    + rewrite andb_false_r. reflexivity.
    + rewrite andb_true_r. reflexivity.
  - rewrite IH. destruct (String.eqb y z) eqn:Hyz; simpl; [|reflexivity].
    apply String.eqb_eq in Hyz. subst z. rewrite Hzx. reflexivity.
Qed.

Lemma includes_toggle (x y : string) (l : list string) :
  includes (toggle x l) y =
  if String.eqb y x then negb (includes l x) else includes l y.
Proof.
  unfold toggle. destruct (includes l x) eqn:Hx.
  - rewrite includes_removed. destruct (String.eqb y x); simpl.
    + apply andb_false_r.
    + apply andb_true_r.
  - rewrite includes_app_one. destruct (String.eqb y x) eqn:Hyx; simpl.
    + apply String.eqb_eq in Hyx. subst y. rewrite Hx. reflexivity.
    + apply orb_false_r.
Qed.

Lemma NoDup_toggle (x : string) (l : list string) : NoDup l -> NoDup (toggle x l).
Proof.
  intros Hl. unfold toggle. destruct (includes l x) eqn:Hx.
  - apply NoDup_ListNoDup, List.NoDup_filter, NoDup_ListNoDup. assumption.
  - apply NoDup_app. split; [assumption|]. split; [|apply NoDup_singleton].
    intros y Hy Hin. apply list_elem_of_singleton in Hin. subst y.
    apply includes_elem_of in Hy. congruence.
Qed.

(** X4.  Clicking the check box of a market (or of an asset type) flips that
    box and no other: afterwards the clicked value is selected exactly if it
    was not before, and every other value is selected exactly if it was.  A
    selection without duplicates stays without duplicates, and the page
    number is not touched. *)
Theorem check_box_flips_only_itself (m y : string) (st : Home) :
  includes (selectedMarkets (toggleMarket m st)) y =
    (if String.eqb y m then negb (includes (selectedMarkets st) m)
     else includes (selectedMarkets st) y)
  /\ includes (selectedAssetTypes (toggleAssetType m st)) y =
    (if String.eqb y m then negb (includes (selectedAssetTypes st) m)
     else includes (selectedAssetTypes st) y)
  /\ (NoDup (selectedMarkets st) -> NoDup (selectedMarkets (toggleMarket m st)))
  /\ (NoDup (selectedAssetTypes st) -> NoDup (selectedAssetTypes (toggleAssetType m st)))
  /\ selectedAssetTypes (toggleMarket m st) = selectedAssetTypes st
  /\ selectedMarkets (toggleAssetType m st) = selectedMarkets st
  /\ currentPage (toggleMarket m st) = currentPage st
  /\ currentPage (toggleAssetType m st) = currentPage st.
Proof.
  repeat split; simpl; try apply includes_toggle; apply NoDup_toggle.
Qed.

Lemma check_box_flips_only_itself_witness :
  NoDup (selectedMarkets (toggleMarket "US" initial)).
Proof.
  apply (check_box_flips_only_itself "US" "US" initial).
  simpl. repeat constructor; intros H; apply list_elem_of_In in H; simpl in H;
    repeat destruct H as [H|H]; try discriminate H; exact H.
Defined.

(** The table depends on the two selections only through what they
    contain. *)
Lemma same_members_same_emptiness (l l' : list string) :
  (forall y, includes l y = includes l' y) ->
  Nat.eqb (length l) 0 = Nat.eqb (length l') 0.
Proof.
  intros H. destruct l as [|a l], l' as [|b l']; try reflexivity; exfalso.
  - specialize (H b). unfold includes in H. simpl in H.
    rewrite String.eqb_refl in H. discriminate.
  - specialize (H a). unfold includes in H. simpl in H.
    rewrite String.eqb_refl in H. discriminate.
Qed.

Lemma filtered_by_members (ms ms' ts ts' : list string) (invs : list RankedInvestment) :
  (forall y, includes ms y = includes ms' y) ->
  (forall y, includes ts y = includes ts' y) ->
  filtered ms ts invs = filtered ms' ts' invs.
Proof.
  intros Hm Ht. unfold filtered. apply filter_ext. intros inv.
  unfold filter_callback, marketMatch, assetMatch.
  rewrite (same_members_same_emptiness _ _ Hm), (same_members_same_emptiness _ _ Ht),
    Hm, Ht. reflexivity.
Qed.

Lemma includes_toggle_twice (x y : string) (l : list string) :
  includes (toggle x (toggle x l)) y = includes l y.
Proof.
  rewrite !includes_toggle. rewrite String.eqb_refl.
  destruct (String.eqb y x) eqn:Hyx; [|reflexivity].
  apply String.eqb_eq in Hyx. subst y. apply negb_involutive.
Qed.

Lemma filter_absent (l : list string) (m : string) :
  includes l m = false -> List.filter (fun x => negb (String.eqb x m)) l = l.
Proof.
  unfold includes. induction l as [|z l IH]; simpl; [reflexivity|].
  intros H. apply orb_false_elim in H as [Hz Hl].
  rewrite String.eqb_sym in Hz. rewrite Hz. simpl. rewrite IH by assumption.
  reflexivity.
Qed.

(** X5.  Clearing a check box and setting it again (or the other way round)
    brings back the table and the page shown, although the selection may
    come back in another order: a value that was selected moves to the end
    of the list. *)
Theorem check_box_twice_restores_the_table (m : string) (st : Home) :
  getFilteredAndSortedInvestments (toggleMarket m (toggleMarket m st)) =
    getFilteredAndSortedInvestments st
  /\ getFilteredAndSortedInvestments (toggleAssetType m (toggleAssetType m st)) =
    getFilteredAndSortedInvestments st
  /\ paginatedInvestments (toggleMarket m (toggleMarket m st)) = paginatedInvestments st
  /\ paginatedInvestments (toggleAssetType m (toggleAssetType m st)) = paginatedInvestments st
  /\ selectedMarkets (toggleMarket m (toggleMarket m st)) =
       (if includes (selectedMarkets st) m
        then List.filter (fun x => negb (String.eqb x m)) (selectedMarkets st) ++ [m]
        else selectedMarkets st).
Proof.
  assert (H1 : getFilteredAndSortedInvestments (toggleMarket m (toggleMarket m st)) =
               getFilteredAndSortedInvestments st).
  { unfold getFilteredAndSortedInvestments, filtered_and_sorted. simpl.
    destruct (analysisData st) as [d|]; [|reflexivity].
    destruct (ranked_investments d) as [invs|]; [|reflexivity].
    f_equal. apply filtered_by_members; [|reflexivity].
    intros y. apply includes_toggle_twice. }
  assert (H2 : getFilteredAndSortedInvestments (toggleAssetType m (toggleAssetType m st)) =
               getFilteredAndSortedInvestments st).
  { unfold getFilteredAndSortedInvestments, filtered_and_sorted. simpl.
    destruct (analysisData st) as [d|]; [|reflexivity].
    destruct (ranked_investments d) as [invs|]; [|reflexivity].
    f_equal. apply filtered_by_members; [reflexivity|].
    intros y. apply includes_toggle_twice. }
  repeat split; try assumption.
  - unfold paginatedInvestments, filteredInvestments. rewrite H1. reflexivity.
  - unfold paginatedInvestments, filteredInvestments. rewrite H2. reflexivity.
  - simpl. unfold toggle at 2. destruct (includes (selectedMarkets st) m) eqn:Hm.
    + unfold toggle. rewrite includes_removed, String.eqb_refl, andb_false_r.
      reflexivity.
    + unfold toggle. rewrite includes_app_one, String.eqb_refl, orb_true_r.
      rewrite List.filter_app. simpl. rewrite String.eqb_refl. simpl. rewrite app_nil_r.
      apply filter_absent. assumption.
Qed.

(** ** Reset, sort headers and pagination buttons *)

Lemma first_page_is_prefix {A : Type} (items : list A) (p : Z) :
  0 < p -> page_items items p 1 = take (Z.to_nat p) items.
Proof.
  intros Hp. unfold page_items. rewrite slice_from_start by lia.
  replace (Z.to_nat ((1 - 1) * p)) with O by lia.
  replace (1 * p - (1 - 1) * p) with p by lia. reflexivity.
Qed.

(** X6.  Reset Filters selects the four markets and the three asset types,
    sets the risk level to Medium and goes to page 1; the table then holds
    exactly the stored investments whose market is one of the four and
    whose asset type is one of the three (so fewer than with nothing
    selected, when the result has other markets), and the page shows its
    first ten rows.  A second reset changes nothing, and the conversation,
    the stored result, the input and the sort state are never touched. *)
Theorem reset_filters_shows_first_page (st : Home) :
  let st' := handleClearFilters st in
  selectedMarkets st' = MARKETS
  /\ selectedAssetTypes st' = ASSET_TYPES
  /\ riskLevel st' = "Medium"
  /\ currentPage st' = 1
  /\ paginatedInvestments st' = take 10 (filteredInvestments st')
  /\ (forall d invs, analysisData st = Some d -> ranked_investments d = Some invs ->
        selects (fun inv => market inv ∈ MARKETS /\ asset_type inv ∈ ASSET_TYPES) invs
          (filtered (selectedMarkets st') (selectedAssetTypes st') invs)
        /\ filteredInvestments st' ≡ₚ
             filtered (selectedMarkets st') (selectedAssetTypes st') invs)
  /\ handleClearFilters st' = st'
  /\ chatMessages st' = chatMessages st
  /\ analysisData st' = analysisData st
  /\ inputMessage st' = inputMessage st
  /\ sortConfig st' = sortConfig st
  /\ loading st' = loading st.
Proof.
  intros st'. repeat split.
  - unfold paginatedInvestments. simpl currentPage.
    apply (first_page_is_prefix (filteredInvestments st') ITEMS_PER_PAGE). reflexivity.
  - apply filter_selects. intros inv. rewrite filter_callback_passes.
    unfold passes. simpl. unfold MARKETS, ASSET_TYPES.
    split; intros [H1 H2]; split.
    + destruct H1 as [H1|H1]; [discriminate|assumption].
    + destruct H2 as [H2|H2]; [discriminate|assumption].
    + right. assumption.
    + right. assumption.
  - unfold filteredInvestments, getFilteredAndSortedInvestments, filtered_and_sorted.
    simpl. match goal with
           | Ha : analysisData st = Some _, Hi : ranked_investments _ = Some _ |- _ =>
               rewrite Ha, Hi
           end. apply sort_perm.
Qed.

Lemma reset_filters_shows_first_page_witness :
  filteredInvestments (handleClearFilters (toggleMarket "NSE" with_csv)) ≡ₚ
    filtered MARKETS ASSET_TYPES sample_investments.
Proof.
  destruct (reset_filters_shows_first_page (toggleMarket "NSE" with_csv))
    as (_ & _ & _ & _ & _ & H & _).
  destruct (H sample_result sample_investments eq_refl eq_refl) as [_ Hp].
  exact Hp.
Defined.

(** X7.  A click on a sort header selects that key; the direction is
    descending exactly when the click hits the key that was already sorted
    ascending, and ascending in every other case.  So repeated clicks on one
    header alternate the direction, each click negating the comparison the
    table is sorted with, and a click on another header starts ascending.
    Only the sort state changes; in particular the page number stays. *)
Theorem sort_header_alternates (k : string) (st : Home) :
  let st1 := handleSort k st in
  let st2 := handleSort k st1 in
  key (sortConfig st1) = k
  /\ (direction (sortConfig st1) = desc <->
      key (sortConfig st) = k /\ direction (sortConfig st) = asc)
  /\ key (sortConfig st2) = k
  /\ direction (sortConfig st2) <> direction (sortConfig st1)
  /\ (forall a b, comparefn (sortConfig st2) a b = - comparefn (sortConfig st1) a b)
  /\ handleSort k st2 = st1
  /\ (forall k', k' <> k -> sortConfig (handleSort k' st1) = {| key := k'; direction := asc |})
  /\ currentPage st1 = currentPage st
  /\ selectedMarkets st1 = selectedMarkets st
  /\ selectedAssetTypes st1 = selectedAssetTypes st
  /\ analysisData st1 = analysisData st.
Proof.
  destruct st as [sb ld chat inp an sel mo pg ms ts rl [k0 d0] stats].
  unfold handleSort, setSortConfig. simpl.
  rewrite String.eqb_refl. simpl.
  destruct (String.eqb k0 k) eqn:Hk, d0; simpl; repeat split;
    try reflexivity; try discriminate; try congruence;
    try (apply String.eqb_eq in Hk; assumption);
    try (intros [H1 H2]; discriminate H2);
    try (intros [H1 H2]; apply String.eqb_neq in Hk; congruence);
    try (intros a b; rewrite comparefn_desc_opp; lia);
    try (intros a b; apply comparefn_desc_opp);
    try (intros k' Hk'; apply String.eqb_neq in Hk';
         rewrite String.eqb_sym in Hk'; rewrite Hk'; reflexivity).
Qed.

Lemma state_with_page (st : Home) : setCurrentPage (fun _ => currentPage st) st = st.
Proof. destruct st. reflexivity. Qed.

Lemma setCurrentPage_twice (f g : Z -> Z) (st : Home) :
  setCurrentPage g (setCurrentPage f st) = setCurrentPage (fun p => g (f p)) st.
Proof. reflexivity. Qed.

Lemma setCurrentPage_to (f : Z -> Z) (st : Home) :
  f (currentPage st) = currentPage st -> setCurrentPage f st = st.
Proof. destruct st. unfold setCurrentPage. simpl. intros ->. reflexivity. Qed.

(** X8.  The pagination buttons keep a page in range: from a page
    between 1 and the number of pages, Previous and Next lead to a page
    between 1 and the same number of pages.  Next undoes Previous and
    Previous undoes Next except at the two ends, where Previous on page 1
    and Next on the last page change nothing. *)
Theorem pagination_buttons_stay_in_range (st : Home) :
  1 <= currentPage st <= totalPages st ->
  totalPages (nextPage st) = totalPages st
  /\ totalPages (previousPage st) = totalPages st
  /\ 1 <= currentPage (nextPage st) <= totalPages st
  /\ 1 <= currentPage (previousPage st) <= totalPages st
  /\ (currentPage st < totalPages st ->
      currentPage (nextPage st) = currentPage st + 1
      /\ previousPage (nextPage st) = st)
  /\ (1 < currentPage st ->
      currentPage (previousPage st) = currentPage st - 1
      /\ nextPage (previousPage st) = st)
  /\ (currentPage st = totalPages st -> nextPage st = st)
  /\ (currentPage st = 1 -> previousPage st = st).
Proof.
  intros Hr.
  assert (Ht : forall f, totalPages (setCurrentPage f st) = totalPages st)
    by reflexivity.
  assert (Hp : forall f, currentPage (setCurrentPage f st) = f (currentPage st))
    by reflexivity.
  unfold nextPage, previousPage. rewrite !Ht, !Hp.
  split; [reflexivity|]. split; [reflexivity|].
  split; [lia|]. split; [lia|].
  split; [|split; [|split]].
  - intros Hlt. split; [lia|].
    rewrite setCurrentPage_twice. apply setCurrentPage_to. lia.
  - intros Hgt. split; [lia|].
    rewrite setCurrentPage_twice. apply setCurrentPage_to. lia.
  - intros He. apply setCurrentPage_to. lia.
  - intros He. apply setCurrentPage_to. lia.
Qed.

Lemma pagination_buttons_stay_in_range_witness :
  previousPage (nextPage (setAnalysisData (Some forty_five) initial)) =
    setAnalysisData (Some forty_five) initial.
Proof.
  destruct (pagination_buttons_stay_in_range (setAnalysisData (Some forty_five) initial))
    as (_ & _ & _ & _ & H & _).
  - vm_compute. split; discriminate.
  - apply H. vm_compute. reflexivity.
Defined.

(** ** Rows and pages *)

Lemma page_items_from_one {A : Type} (items : list A) (p page : Z) :
  0 < p -> 1 <= page ->
  page_items items p page =
    take (Z.to_nat p) (drop (Z.to_nat ((page - 1) * p)) items).
Proof.
  intros Hp H1. unfold page_items. rewrite slice_from_start by nia.
  replace (page * p - (page - 1) * p) with p by lia. reflexivity.
Qed.

(** X9.  The number shown in front of a row is the rank of its investment in
    the whole table: on a page from 1 on, row [idx] of the page is the entry
    of the filtered and sorted list at position [row_number - 1], and a page
    has at most ten rows. *)
Theorem row_number_is_rank (st : Home) (idx : nat) (inv : RankedInvestment) :
  1 <= currentPage st ->
  paginatedInvestments st !! idx = Some inv ->
  filteredInvestments st !! Z.to_nat (row_number st idx - 1) = Some inv
  /\ 1 <= row_number st idx <= Z.of_nat (length (filteredInvestments st))
  /\ (idx < 10)%nat.
Proof.
  intros H1 Hrow. unfold paginatedInvestments in Hrow.
  rewrite page_items_from_one in Hrow by (unfold ITEMS_PER_PAGE; lia).
  apply lookup_take_Some in Hrow as [Hrow Hidx]. rewrite lookup_drop in Hrow.
  unfold row_number.
  replace (Z.to_nat ((currentPage st - 1) * ITEMS_PER_PAGE + Z.of_nat idx + 1 - 1))
    with (Z.to_nat ((currentPage st - 1) * ITEMS_PER_PAGE) + idx)%nat
    by (unfold ITEMS_PER_PAGE; lia).
  split; [assumption|]. split.
  - apply lookup_lt_Some in Hrow. unfold ITEMS_PER_PAGE in *. lia.
  - unfold ITEMS_PER_PAGE in Hidx. lia.
Qed.

Lemma row_number_is_rank_witness :
  filteredInvestments (home on_page_3) !! 20%nat = Some (numbered "US" 20)
  /\ row_number (home on_page_3) 0 = 21.
Proof.
  split; [|reflexivity].
  destruct (row_number_is_rank (home on_page_3) 0 (numbered "US" 20)) as (H & _).
  - vm_compute. discriminate.
  - vm_compute. reflexivity.
  - exact H.
Defined.

Lemma chunks_make_prefix {A : Type} (l : list A) (p k : nat) :
  concat (map (fun i => take p (drop (i * p) l)) (seq 0 k)) = take (k * p) l.
Proof.
  induction k as [|k IH].
  - reflexivity.
  - rewrite seq_S, map_app, concat_app, IH. simpl.
    rewrite app_nil_r, take_take_drop. f_equal. lia.
Qed.

(** X10.  The pages partition the table: for a positive page size, the pages
    1 to [totalPages], one after the other, are the whole list, every row
    once and in order. *)
Theorem pages_partition_the_table {A : Type} (items : list A) (p : Z) :
  0 < p ->
  concat
    (map (fun i => page_items items p (Z.of_nat i + 1))
       (seq 0 (Z.to_nat (total_pages items p)))) = items.
Proof.
  intros Hp.
  rewrite (map_ext _ (fun i => take (Z.to_nat p) (drop (i * Z.to_nat p) items))).
  - rewrite chunks_make_prefix. apply take_ge.
    unfold total_pages. rewrite ceil_quotient_div by assumption.
    assert (H : Z.of_nat (length items) <=
                ((Z.of_nat (length items) + p - 1) / p) * p)
      by (Z.div_mod_to_equations; nia).
    assert (H0 : 0 <= (Z.of_nat (length items) + p - 1) / p)
      by (Z.div_mod_to_equations; nia).
    nia.
  - intros i. rewrite page_items_from_one by lia.
    do 2 f_equal. nia.
Qed.

Lemma pages_partition_the_table_witness :
  page_items sample_investments 2 1 ++ page_items sample_investments 2 2 =
    sample_investments.
Proof.
  assert (H := pages_partition_the_table sample_investments 2 ltac:(lia)).
  vm_compute in H. vm_compute. exact H.
Defined.

(** ** Sessions *)

Lemma alternating_app (e : Role) (l l' : list Role) :
  alternating e (l ++ l') =
  match alternating e l with
  | Some e' => alternating e' l'
  | None => None
  end.
Proof.
  revert e. induction l as [|r l IH]; intros e; simpl; [reflexivity|].
  destruct e, r; try reflexivity; apply IH.
Qed.

Lemma latest_data_app (l : list ChatMessage) (m : ChatMessage) :
  latest_data (l ++ [m]) =
  match data m with Some d => Some d | None => latest_data l end.
Proof. unfold latest_data. rewrite fold_left_app. reflexivity. Qed.

Lemma toggle_members (x y : string) (l : list string) :
  y ∈ toggle x l -> y ∈ l \/ y = x.
Proof.
  intros H. apply includes_elem_of in H. rewrite includes_toggle in H.
  destruct (String.eqb y x) eqn:E.
  - right. apply String.eqb_eq. assumption.
  - left. apply includes_elem_of. assumption.
Qed.

Lemma run_reachable (events : list Event) (s s' : Session) :
  reachable s -> run events s = Some s' -> reachable s'.
Proof.
  revert s. induction events as [|e rest IH]; intros s Hs; simpl.
  - intros [= <-]. assumption.
  - destruct (enabled e s) eqn:He; [|discriminate].
    apply IH. apply reachable_fire; assumption.
Qed.

Lemma vocabularies_have_no_duplicates :
  NoDup MARKETS /\ NoDup ASSET_TYPES /\ "Medium" ∈ RISK_LEVELS.
Proof.
  split; [|split].
  - apply NoDup_ListNoDup. unfold MARKETS.
    repeat constructor; simpl; intros H;
      repeat destruct H as [H|H]; try discriminate H; exact H.
  - apply NoDup_ListNoDup. unfold ASSET_TYPES.
    repeat constructor; simpl; intros H;
      repeat destruct H as [H|H]; try discriminate H; exact H.
  - apply list_elem_of_In. simpl. tauto.
Qed.

(** A request that starts in an idle session. *)
Lemma submit_ok (t : Z) (message : option string) (s : Session) :
  session_ok s -> loading (view s) = false -> session_ok (submit t message s).
Proof.
  intros Hok Hl. unfold submit, before_await.
  destruct (negb (JS.str_truthy (messageToSend message (view s))) && negb (truthy message));
    [assumption|].
  destruct Hok as (Hf & Ha & Hd & Hp & Hrest).
  unfold session_ok. simpl.
  destruct Hf as [[Hf _]|(text & _ & Hf)]; [|congruence].
  rewrite Hf. repeat split; try assumption.
  - right. eexists. split; reflexivity.
  - unfold append. rewrite map_app, alternating_app, Ha, Hl. reflexivity.
  - unfold append. rewrite latest_data_app. simpl. assumption.
  - apply Hrest.
  - apply Hrest.
  - apply Hrest.
  - apply Hrest.
  - apply Hrest.
  - apply Hrest.
Qed.

Lemma settle_ok (t : Z) (o : AgentOutcome) (s : Session) :
  session_ok s -> in_flight s <> [] ->
  session_ok {| view := after_await t o (view s); in_flight := tl (in_flight s) |}.
Proof.
  intros (Hf & Ha & Hd & Hp & Hrest) Hne.
  destruct Hf as [[Hf _]|(text & Hf & Hl)]; [contradiction|].
  destruct (after_await_replied t o (view s))
    as (reply & (Hc & Hr & _ & Hl' & _ & Hm & Hat & Hrl & _ & Han & Hms) & Hpg).
  unfold session_ok. cbn [view in_flight].
  rewrite Hf, Hc, Hl', Hm, Hat, Hrl, Han, Hms, Hpg. simpl.
  repeat split; try apply Hrest.
  - left. split; reflexivity.
  - rewrite map_app, alternating_app, Ha, Hl. simpl. rewrite Hr. reflexivity.
  - rewrite latest_data_app. destruct (data reply); [reflexivity|assumption].
  - destruct (data reply); [lia|assumption].
Qed.

Lemma reachable_ok (s : Session) : reachable s -> session_ok s.
Proof.
  induction 1 as [|e s Hs IH He].
  - destruct vocabularies_have_no_duplicates as (Hm & Ht & Hr).
    unfold session_ok, start. simpl. repeat split; try reflexivity; try lia;
      try assumption; auto.
  - destruct e; simpl in He; simpl fire;
      try (apply submit_ok; [assumption|apply negb_true_iff; assumption]).
    + (* ToggleSidebar *) exact IH.
    + (* ToggleMarket *)
      destruct IH as (Hf & Ha & Hd & Hp & Hn & Hv & Hrest).
      unfold session_ok. simpl. repeat split; try assumption; try apply Hrest.
      * apply NoDup_toggle. assumption.
      * intros y Hy. apply toggle_members in Hy as [Hy| ->]; [auto|].
        apply includes_elem_of. assumption.
    + (* ToggleAssetType *)
      destruct IH as (Hf & Ha & Hd & Hp & Hn & Hv & Hn' & Hv' & Hr & Hs').
      unfold session_ok. simpl. repeat split; try assumption.
      * apply NoDup_toggle. assumption.
      * intros y Hy. apply toggle_members in Hy as [Hy| ->]; [auto|].
        apply includes_elem_of. assumption.
    + (* SelectRisk *)
      destruct IH as (Hf & Ha & Hd & Hp & Hn & Hv & Hn' & Hv' & Hr & Hs').
      unfold session_ok. simpl. repeat split; try assumption.
      apply includes_elem_of. assumption.
    + (* ClickReset *)
      destruct IH as (Hf & Ha & Hd & Hp & Hn & Hv & Hn' & Hv' & Hr & Hs').
      destruct vocabularies_have_no_duplicates as (Hm & Ht & Hk).
      unfold session_ok. simpl. repeat split; try assumption; try lia; auto.
    + (* TypeInput *) exact IH.
    + (* ClickSend *)
      apply submit_ok; [assumption|].
      apply negb_true_iff, orb_false_elim in He. apply He.
    + (* AgentSettles *)
      destruct (in_flight s) as [|text rest] eqn:Hfl; [discriminate|].
      change rest with (tl (text :: rest)). rewrite <- Hfl.
      apply settle_ok; [assumption|]. rewrite Hfl. discriminate.
    + (* ClickExport *) exact IH.
    + (* ClickRow *)
      destruct (paginatedInvestments (view s) !! idx); exact IH.
    + (* ClickPrevious *)
      destruct IH as (Hf & Ha & Hd & Hp & Hrest).
      unfold session_ok. simpl. repeat split; try assumption; try apply Hrest. lia.
    + (* ClickNext *)
      destruct IH as (Hf & Ha & Hd & Hp & Hrest).
      apply andb_prop in He as [Ht _]. apply Z.ltb_lt in Ht.
      unfold session_ok. simpl. repeat split; try assumption; try apply Hrest.
      fold (totalPages (view s)). lia.
    + (* ModalOpenChange *) exact IH.
Qed.

Lemma sample_session_reachable : reachable sample_session /\ reachable waiting_session.
Proof.
  split.
  - apply (run_reachable sample_events start); [constructor|]. vm_compute. reflexivity.
  - apply (run_reachable (take 4 sample_events) start); [constructor|].
    vm_compute. reflexivity.
Qed.

(** X11.  Through the controls of the page at most one request is in flight:
    in every reachable session [loading] is true exactly while a request is
    in flight, there is never a second one, and the three ways of sending
    (Enter, the Send button, Run Full Analysis) are enabled only when none is
    in flight. *)
Theorem one_request_at_a_time (s : Session) :
  reachable s ->
  (length (in_flight s) <= 1)%nat
  /\ (loading (view s) = true <-> in_flight s <> [])
  /\ (forall t,
        enabled (PressEnter t) s = true \/ enabled (ClickSend t) s = true
        \/ enabled (ClickFullAnalysis t) s = true ->
        in_flight s = [])
  /\ (forall o t, enabled (AgentSettles o t) s = true ->
        in_flight (fire (AgentSettles o t) s) = []
        /\ loading (view (fire (AgentSettles o t) s)) = false).
Proof.
  intros Hs. pose proof (reachable_ok s Hs) as (Hf & _).
  destruct Hf as [[Hf Hl]|(text & Hf & Hl)].
  - split; [rewrite Hf; simpl; lia|]. split; [|split].
    + rewrite Hf, Hl. split; [discriminate|congruence].
    + intros t _. assumption.
    + intros o t He. simpl in He. rewrite Hf in He. discriminate.
  - split; [rewrite Hf; simpl; lia|]. split; [|split].
    + rewrite Hf, Hl. split; [discriminate|reflexivity].
    + intros t [He|[He|He]]; simpl in He; rewrite Hl in He; discriminate.
    + intros o t _. simpl. rewrite Hf. simpl. split; [reflexivity|].
      destruct (after_await_replied t o (view s)) as (reply & (_ & _ & _ & H' & _) & _).
      exact H'.
Qed.

Lemma one_request_at_a_time_witness :
  (length (in_flight waiting_session) <= 1)%nat
  /\ (loading (view waiting_session) = true <-> in_flight waiting_session <> []).
Proof.
  destruct (one_request_at_a_time waiting_session) as (H1 & H2 & _).
  - apply sample_session_reachable.
  - split; assumption.
Defined.

Lemma alternating_parity (e e' : Role) (l : list Role) :
  alternating e l = Some e' ->
  Nat.even (length l) =
    match e, e' with user, user | assistant, assistant => true | _, _ => false end.
Proof.
  revert e. induction l as [|r l IH]; intros e; simpl alternating.
  - intros [= <-]. destruct e; reflexivity.
  - destruct e, r; try discriminate; intros H; apply IH in H;
      simpl length; rewrite Nat.even_succ, <- Nat.negb_even, H;
      destruct e'; reflexivity.
Qed.

(** X12.  In every reachable session the conversation alternates between
    user and assistant, starting with the user: it consists of complete
    exchanges, followed by one unanswered user entry exactly while a request
    is in flight.  So its length is even when the page is idle and odd while
    it is loading. *)
Theorem conversation_alternates (s : Session) :
  reachable s ->
  alternating user (map role (chatMessages (view s))) =
    Some (if loading (view s) then assistant else user)
  /\ Nat.even (length (chatMessages (view s))) = negb (loading (view s)).
Proof.
  intros Hs. pose proof (reachable_ok s Hs) as (_ & Ha & _).
  split; [assumption|].
  apply alternating_parity in Ha. rewrite length_map in Ha. rewrite Ha.
  destruct (loading (view s)); reflexivity.
Qed.

Lemma conversation_alternates_witness :
  map role (chatMessages (view sample_session)) = [user; assistant]
  /\ Nat.even (length (chatMessages (view sample_session))) = true.
Proof.
  split; [reflexivity|].
  apply (conversation_alternates sample_session). apply sample_session_reachable.
Defined.

(** X13.  In every reachable session the stored result, from which the table
    is derived, is the result attached to the latest conversation entry that
    carries one, and there is none stored as long as no entry carries one:
    table and conversation never show different results. *)
Theorem table_shows_latest_result (s : Session) :
  reachable s ->
  analysisData (view s) = latest_data (chatMessages (view s)).
Proof.
  intros Hs. pose proof (reachable_ok s Hs) as (_ & _ & Hd & _). exact Hd.
Qed.

Lemma table_shows_latest_result_witness :
  analysisData (view sample_session) = Some sample_result
  /\ analysisData (view sample_session) = latest_data (chatMessages (view sample_session)).
Proof.
  split; [reflexivity|].
  apply (table_shows_latest_result sample_session). apply sample_session_reachable.
Defined.

(** X14.  In every reachable session the page number is at least 1, the
    selected markets are distinct members of NSE, BSE, CMX, US, the selected
    asset types are distinct members of stock, mutual_fund, etf, and the
    risk level is one of Conservative, Medium, Aggressive. *)
Theorem controls_stay_valid (s : Session) :
  reachable s ->
  1 <= currentPage (view s)
  /\ NoDup (selectedMarkets (view s))
  /\ (forall m, m ∈ selectedMarkets (view s) -> m ∈ MARKETS)
  /\ NoDup (selectedAssetTypes (view s))
  /\ (forall a, a ∈ selectedAssetTypes (view s) -> a ∈ ASSET_TYPES)
  /\ riskLevel (view s) ∈ RISK_LEVELS.
Proof.
  intros Hs.
  pose proof (reachable_ok s Hs) as (_ & _ & _ & Hp & Hm & Hm' & Ht & Ht' & Hr & _).
  repeat split; assumption.
Qed.

Lemma controls_stay_valid_witness :
  1 <= currentPage (view sample_session)
  /\ NoDup (selectedMarkets (view sample_session)).
Proof.
  destruct (controls_stay_valid sample_session) as (H1 & H2 & _).
  - apply sample_session_reachable.
  - split; assumption.
Defined.

(** The page number is not bounded by the number of pages: the check boxes
    do not reset it. *)
Lemma page_can_pass_the_last :
  exists s, run narrowing_events start = Some s
    /\ reachable s
    /\ totalPages (view s) = 1 /\ currentPage (view s) = 3
    /\ paginatedInvestments (view s) = [].
Proof.
  eexists. split; [vm_compute; reflexivity|]. split.
  - apply (run_reachable narrowing_events start); [constructor|].
    vm_compute. reflexivity.
  - vm_compute. repeat split; reflexivity.
Qed.

(** ** Progress bars *)




(** ** Export *)

Lemma split_at_first (c : ascii) (d rest : string) :
  has_unit c d = false ->
  hd "" (JS.split_on c (d ++ String c rest)) = d.
Proof.
  induction d as [|x d IH]; simpl.
  - intros _. rewrite Ascii.eqb_refl. reflexivity.
  - intros H. apply orb_false_elim in H as [Hx Hd]. rewrite Hx.
    specialize (IH Hd).
    destruct (JS.split_on c (d ++ String c rest)) as [|w ws]; simpl in *.
    + subst d. reflexivity.
    + subst w. reflexivity.
Qed.

(** X16.  The Export button is enabled exactly when its handler downloads
    something; and when the time stamp reads [date], the letter T, and a
    rest, with no T in [date], the file is named
    [financial_analysis_<date>.csv]: the time of day never enters the name,
    and the five effects on the document use one anchor and one URL. *)
Theorem export_names_file_by_date (s : Session) (date rest url : string) :
  has_unit "T" date = false ->
  let iso := String.append date (String "T" rest) in
  let a := {|
    href := url;
    download := String.append "financial_analysis_" (String.append date ".csv") |} in
  (enabled ClickExport s = true <-> handleExportCSV iso url (view s) <> [])
  /\ (enabled ClickExport s = true ->
      exists csv,
        handleExportCSV iso url (view s) =
          [createObjectURL {| blobParts := [csv]; blob_type := "text/csv" |};
           appendChild a; click a; removeChild a; revokeObjectURL url]).
Proof.
  intros Hd iso a. unfold enabled, handleExportCSV.
  destruct (analysisData (view s)) as [d|]; [|split; [split|]; congruence].
  destruct (csv_export_data d) as [csv|]; simpl; [|split; [split|]; congruence].
  destruct csv as [|c csv]; simpl; [split; [split|]; congruence|].
  subst iso. rewrite (split_at_first "T" date rest Hd).
  split; [split; [discriminate|reflexivity]|].
  intros _. eexists. reflexivity.
Qed.

Lemma export_names_file_by_date_witness :
  exists csv,
    handleExportCSV "2026-01-15T09:30:00.000Z" "blob:1" (view sample_session) =
      [createObjectURL {| blobParts := [csv]; blob_type := "text/csv" |};
       appendChild {| href := "blob:1"; download := "financial_analysis_2026-01-15.csv" |};
       click {| href := "blob:1"; download := "financial_analysis_2026-01-15.csv" |};
       removeChild {| href := "blob:1"; download := "financial_analysis_2026-01-15.csv" |};
       revokeObjectURL "blob:1"].
Proof.
  apply (export_names_file_by_date sample_session "2026-01-15" "09:30:00.000Z" "blob:1").
  - reflexivity.
  - reflexivity.
Defined.

(** ** Typed messages *)

Lemma trim_start_head (s : string) :
  JS.trim_start s = "" \/
  exists c r, JS.trim_start s = String c r /\ JS.is_white_space c = false.
Proof.
  induction s as [|c s IH]; simpl; [left; reflexivity|].
  destruct (JS.is_white_space c) eqn:Hc; [assumption|].
  right. exists c, s. split; [reflexivity|assumption].
Qed.

Lemma trim_end_keeps_head (c : ascii) (r : string) :
  JS.is_white_space c = false ->
  JS.trim_end (String c r) = String c (JS.trim_end r).
Proof. intros Hc. simpl. rewrite Hc. destruct (JS.trim_end r); reflexivity. Qed.

Lemma trim_end_idempotent (s : string) : JS.trim_end (JS.trim_end s) = JS.trim_end s.
Proof.
  induction s as [|c r IH]; [reflexivity|].
  simpl. destruct (JS.trim_end r) as [|d e] eqn:He.
  - destruct (JS.is_white_space c) eqn:Hc; [reflexivity|].
    simpl. rewrite Hc. reflexivity.
  - simpl in IH |- *. destruct (JS.trim_end e) eqn:Hee.
    + destruct (JS.is_white_space d); [discriminate|]. rewrite IH. reflexivity.
    + rewrite IH. reflexivity.
Qed.

Lemma trim_idempotent (s : string) : JS.trim (JS.trim s) = JS.trim s.
Proof.
  unfold JS.trim.
  destruct (trim_start_head s) as [->|(c & r & -> & Hc)]; [reflexivity|].
  rewrite (trim_end_keeps_head c r Hc). simpl JS.trim_start. rewrite Hc.
  rewrite <- (trim_end_keeps_head c r Hc). apply trim_end_idempotent.
Qed.

(** X17.  A click on the enabled Send button always starts a request, and
    what goes out is the text of the input field with the white space at
    both ends removed (trimming it again changes nothing): that text is
    queued for the agent and appended as the user entry, the input field is
    emptied and [loading] is set.  Enter on a blank input field starts
    nothing and leaves the session as it is. *)
Theorem send_button_sends_the_trimmed_input (s : Session) (t : Z) :
  let text := JS.trim (inputMessage (view s)) in
  (enabled (ClickSend t) s = true ->
   let s' := fire (ClickSend t) s in
   in_flight s' = in_flight s ++ [text]
   /\ text <> ""
   /\ JS.trim text = text
   /\ chatMessages (view s') =
        chatMessages (view s)
        ++ [{| role := user; content := text; timestamp := t;
               data := None; metadata := None |}]
   /\ inputMessage (view s') = ""
   /\ loading (view s') = true)
  /\ (text = "" -> fire (PressEnter t) s = s /\ fire (ClickSend t) s = s).
Proof.
  intros text. split.
  - intros He s'. simpl in He.
    apply negb_true_iff, orb_false_elim in He as [_ Ht].
    apply negb_false_iff in Ht. fold text in Ht.
    subst s'. simpl. unfold submit, before_await, messageToSend. simpl.
    fold text. rewrite Ht. simpl.
    repeat split.
    + intros E. rewrite E in Ht. discriminate.
    + apply trim_idempotent.
  - intros Hb. simpl. unfold submit, before_await, messageToSend. simpl.
    fold text. rewrite Hb. simpl. split; reflexivity.
Qed.

Lemma send_button_sends_the_trimmed_input_witness :
  in_flight (fire (ClickSend 1000)
               {| view := setInputMessage "  top dividend stocks " initial;
                  in_flight := [] |}) = ["top dividend stocks"].
Proof.
  apply (send_button_sends_the_trimmed_input
           {| view := setInputMessage "  top dividend stocks " initial;
              in_flight := [] |} 1000).
  reflexivity.
Defined.

(** ** More on check boxes, the overview cards and the guard *)

(** X18.  Clearing the only check box that is still set does not empty the
    table, it widens it: with no market selected the filter lets every
    market through, so the table holds every stored investment that passes
    the asset-type filter, and every row that was shown before is still
    there. *)
Theorem clearing_the_last_box_shows_every_market (m : string) (st : Home) :
  selectedMarkets st = [m] ->
  let st' := toggleMarket m st in
  selectedMarkets st' = []
  /\ (forall d invs, analysisData st = Some d -> ranked_investments d = Some invs ->
        filteredInvestments st' ≡ₚ List.filter (assetMatch (selectedAssetTypes st)) invs)
  /\ (forall inv, inv ∈ filteredInvestments st -> inv ∈ filteredInvestments st').
Proof.
  intros Hm st'.
  assert (Hs : selectedMarkets st' = []).
  { subst st'. simpl. rewrite Hm. unfold toggle, includes. simpl.
    rewrite String.eqb_refl. simpl. rewrite ?String.eqb_refl. reflexivity. }
  assert (Ht : forall invs,
    filtered (selectedMarkets st') (selectedAssetTypes st') invs =
    List.filter (assetMatch (selectedAssetTypes st)) invs).
  { intros invs. rewrite Hs. unfold filtered. apply filter_ext. intros inv. reflexivity. }
  split; [assumption|]. split.
  - intros d invs Hd Hi.
    unfold filteredInvestments, getFilteredAndSortedInvestments, filtered_and_sorted.
    change (analysisData st') with (analysisData st). rewrite Hd, Hi.
    rewrite sort_perm.
    change (sortConfig st') with (sortConfig st).
    rewrite Ht. reflexivity.
  - intros inv.
    unfold filteredInvestments, getFilteredAndSortedInvestments, filtered_and_sorted.
    change (analysisData st') with (analysisData st).
    destruct (analysisData st) as [d|]; [|auto].
    destruct (ranked_investments d) as [invs|]; [|auto].
    rewrite !sort_perm, Ht. unfold filtered.
    rewrite !list_elem_of_In, !filter_In. unfold filter_callback.
    intros [Hin Hp]. apply andb_prop in Hp as [_ Ha]. split; assumption.
Qed.

Lemma clearing_the_last_box_shows_every_market_witness :
  map symbol
    (filteredInvestments
       (toggleMarket "US" (setSelectedMarkets (fun _ => ["US"]) with_csv)))
  = ["AAPL"; "RELIANCE"; "NIFTYBEES"]
  /\ investment "AAPL" "US" "stock" "10" "9%"
     ∈ filteredInvestments
         (toggleMarket "US" (setSelectedMarkets (fun _ => ["US"]) with_csv)).
Proof.
  split; [reflexivity|].
  apply (clearing_the_last_box_shows_every_market "US"
           (setSelectedMarkets (fun _ => ["US"]) with_csv)).
  - reflexivity.
  - vm_compute. apply list_elem_of_here.
Defined.

Lemma guard_decides (message : option string) (st : Home) :
  negb (JS.str_truthy (messageToSend message st)) && negb (truthy message) =
  negb (JS.str_truthy (messageToSend message st))
  /\ (JS.str_truthy (messageToSend message st) = false <->
      truthy message = false /\ JS.trim (inputMessage st) = "").
Proof.
  unfold messageToSend, JS.or_else, truthy.
  destruct message as [m|].
  - destruct (JS.str_truthy m) eqn:Hm; simpl.
    + rewrite Hm. split; [reflexivity|]. split; [discriminate|intros [H _]; discriminate].
    + rewrite andb_true_r. split; [reflexivity|].
      destruct (JS.trim (inputMessage st)); simpl; split; try tauto; try discriminate.
      intros [_ H]. discriminate.
  - simpl. rewrite andb_true_r. split; [reflexivity|].
    destruct (JS.trim (inputMessage st)); simpl; split; try tauto; try discriminate.
    intros [_ H]. discriminate.
Qed.

(** Either copy of the handler, in the two cases of its guard. *)
Lemma run_cases (h : Env -> option string -> Eff unit)
    (env : Env) (message : option string) (w : World) :
  In h handlers ->
  (JS.str_truthy (messageToSend message (home w)) = false /\ h env message w = (Normal tt, w))
  \/ (JS.str_truthy (messageToSend message (home w)) = true
      /\ exists k, continuation h k
         /\ h env message w =
            (Normal tt,
             {| home :=
                  k (reply_time env)
                    (callAIAgent env (messageToSend message (home w)) AGENT_ID)
                    (setInputMessage ""
                       (setChatMessages
                          (append (userMessage env (messageToSend message (home w))))
                          (setLoading true (home w))));
                agent_calls :=
                  agent_calls w ++ [(messageToSend message (home w), AGENT_ID)] |})).
Proof.
  intros Hh. destruct (JS.str_truthy (messageToSend message (home w))) eqn:Hg.
  - right. split; [reflexivity|].
    destruct (handlers_continuation h Hh) as [k Hk]. exists k. split; [assumption|].
    apply passed_run_equation; assumption.
  - left. split; [reflexivity|].
    assert (Hb : negb (JS.str_truthy (messageToSend message (home w)))
                 && negb (truthy message) = true).
    { destruct (guard_decides message (home w)) as [-> _]. rewrite Hg. reflexivity. }
    destruct (page_tsx_guard_agrees env message w Hb) as [H1 H2].
    destruct Hh as [<-|[<-|[]]]; assumption.
Qed.

(** X19.  The four figures of the market overview cards never change: no
    run of either copy of the handler touches them, whatever the agent
    returns, and in every reachable session they are the figures of the
    first render. *)
Theorem market_overview_never_changes :
  (forall h env message w, In h handlers ->
     marketStats (home (snd (h env message w))) = marketStats (home w))
  /\ (forall s, reachable s -> marketStats (view s) = marketStats initial).
Proof.
  split.
  - intros h env message w Hh.
    destruct (run_cases h env message w Hh) as [[_ ->]|(_ & k & Hk & ->)];
      [reflexivity|].
    cbn [snd home].
    match goal with |- context [k ?t ?o ?st] =>
      destruct (continuation_replied h k t o st Hk) as (reply & Hr & _)
    end.
    destruct Hr as (_ & _ & _ & _ & _ & _ & _ & _ & _ & _ & Hms).
    rewrite Hms. reflexivity.
  - intros s Hs. apply (reachable_ok s Hs).
Qed.

Lemma market_overview_never_changes_witness :
  marketStats (view sample_session) = marketStats initial.
Proof.
  apply market_overview_never_changes. apply sample_session_reachable.
Defined.

(** X20.  Either copy of the handler leaves everything as it is exactly when
    there is nothing to send: the agent is not called if and only if the
    message argument is missing or empty and the trimmed input field is
    empty, and in that case the whole state is untouched. *)
Theorem nothing_is_sent_iff_nothing_to_send (h : Env -> option string -> Eff unit)
    (env : Env) (message : option string) (w : World) :
  In h handlers ->
  (agent_calls (snd (h env message w)) = agent_calls w <->
   truthy message = false /\ JS.trim (inputMessage (home w)) = "")
  /\ (truthy message = false /\ JS.trim (inputMessage (home w)) = "" ->
      h env message w = (Normal tt, w)).
Proof.
  intros Hh. destruct (guard_decides message (home w)) as [_ Hg].
  destruct (run_cases h env message w Hh) as [[Hf ->]|(Ht & k & _ & ->)].
  - split; [|intros _; reflexivity].
    split; [intros _; apply Hg; assumption|reflexivity].
  - cbn [snd agent_calls]. split.
    + split.
      * intros E. apply (f_equal (@length _)) in E.
        rewrite length_app in E. simpl in E. lia.
      * intros H. apply Hg in H. congruence.
    + intros H. apply Hg in H. congruence.
Qed.

Lemma nothing_is_sent_iff_nothing_to_send_witness :
  handleSendMessage (env_of Rejected) (Some "") blank_input = (Normal tt, blank_input).
Proof.
  apply (nothing_is_sent_iff_nothing_to_send handleSendMessage (env_of Rejected)
           (Some "") blank_input).
  - left. reflexivity.
  - split; reflexivity.
Defined.

Lemma recommendation_badge_ignores_case_witness :
  getRecommendationStyle "BUY" = "default".
Proof.
  apply (recommendation_badge_ignores_case "BUY"). reflexivity.
Defined.

Lemma sort_header_alternates_witness :
  sortConfig (handleSort "symbol" (handleSort "name" initial)) =
    {| key := "symbol"; direction := asc |}.
Proof.
  apply (sort_header_alternates "name" initial). discriminate.
Defined.
